(** * MinecraftMonitoring: a model of [run.py] and its storage contract

    The development embeds [run.py] (storage in [servers.json], the prober
    [ping_server], one cycle of the background refresher [server_checker]
    and the [POST /add-server] handler) and proves the behavioural
    contract of the monitoring service about it.

    Conventions of the model.
    - A Python [str] is a Stdlib [string] holding the UTF-8 text; the
      character classes used by [str.strip], [int] and the [re] pattern
      are the ASCII ones (letters, digits and spaces outside ASCII are
      not classified).
    - A Python [float] is a fixed-point number counted in millionths
      ([VFloat 1500000] is [1.5]); NaN and the infinities are not
      represented.
    - Python objects are values of [pyval]; a [dict] is an association
      list in insertion order.
    - Everything the handler and the refresher touch outside their own
      variables (the storage file, the clock, the network, the log) is a
      field of [World], threaded through the monad [M], whose second
      outcome is a raised Python exception. *)

From Stdlib Require Import List String Ascii ZArith NArith Bool Arith Lia.
Import ListNotations.

#[local] Set Warnings "-register-all".

Local Open Scope string_scope.
Local Open Scope list_scope.

(** ** Characters and text *)

Definition code (c : ascii) : N := N_of_ascii c.

Definition chr (n : N) : ascii := ascii_of_N n.

Definition dquote : ascii := chr 34.
Definition backslash : ascii := chr 92.
Definition newline : ascii := chr 10.
Definition colon : ascii := chr 58.

Definition between (lo hi : N) (c : ascii) : bool :=
  ((lo <=? code c) && (code c <=? hi))%N.

(** [\d] of the pattern and the digits of [int]. *)
Definition is_digit (c : ascii) : bool := between 48 57 c.

(** [\w]: letters, digits and the underscore. *)
Definition is_word (c : ascii) : bool :=
  is_digit c || between 65 90 c || between 97 122 c || (code c =? 95)%N.

(** Characters removed by [str.strip()]. *)
Definition is_space (c : ascii) : bool :=
  between 9 13 c || between 28 32 c.

(** Characters skipped by [int()] around the literal. *)
Definition is_int_space (c : ascii) : bool :=
  between 9 13 c || (code c =? 32)%N.

Definition chars (s : string) : list ascii := list_ascii_of_string s.
Definition text (l : list ascii) : string := string_of_list_ascii l.

Fixpoint drop_while (p : ascii -> bool) (l : list ascii) : list ascii :=
  match l with
  | [] => []
  | c :: r => if p c then drop_while p r else l
  end.

Definition strip_by (p : ascii -> bool) (l : list ascii) : list ascii :=
  rev (drop_while p (rev (drop_while p l))).

(** [s.strip()] *)
Definition strip (s : string) : string := text (strip_by is_space (chars s)).

(** [':' in s] *)
Definition has_colon (s : string) : bool :=
  existsb (Ascii.eqb colon) (chars s).

(** [s.split(':', 1)] for a string that holds a colon: the text before the
    first colon and the text after it. *)
Fixpoint split_colon (l : list ascii) : list ascii * list ascii :=
  match l with
  | [] => ([], [])
  | c :: r =>
      if Ascii.eqb colon c then ([], r)
      else let (h, p) := split_colon r in (c :: h, p)
  end.

(** ** Decimal numerals *)

Definition digit_char (d : N) : ascii := chr (48 + d).
Definition digit_val (c : ascii) : N := code c - 48.

Fixpoint digits_aux (fuel : nat) (n : N) (acc : list ascii) : list ascii :=
  match fuel with
  | O => acc
  | S f =>
      if (n <? 10)%N then digit_char n :: acc
      else digits_aux f (n / 10) (digit_char (n mod 10) :: acc)
  end.

(** The decimal numeral of [n], most significant digit first. *)
Definition digits_of_N (n : N) : list ascii :=
  digits_aux (S (N.to_nat (N.log2 n))) n [].

Fixpoint val_digits (acc : N) (ds : list ascii) : N :=
  match ds with
  | [] => acc
  | c :: r => val_digits (acc * 10 + digit_val c) r
  end.

Definition minus_sign : ascii := chr 45.

(** [str(n)] for an [int]. *)
Definition digits_of_Z (z : Z) : list ascii :=
  if (z <? 0)%Z then minus_sign :: digits_of_N (Z.abs_N z)
  else digits_of_N (Z.abs_N z).

(** [k] digits of [n], zero padded. *)
Fixpoint digits_fixed (k : nat) (n : N) : list ascii :=
  match k with
  | O => []
  | S k' => digit_char ((n / 10 ^ N.of_nat k') mod 10) :: digits_fixed k' n
  end.

(** The numeral of a float: sign, integer part, a point and six decimals. *)
Definition digits_of_float (m : Z) : list ascii :=
  let a := Z.abs_N m in
  (if (m <? 0)%Z then [minus_sign] else [])
    ++ digits_of_N (a / 1000000) ++ chr 46 :: digits_fixed 6 (a mod 1000000).

(** [format(x, '.2f')]: two decimals, ties to the even neighbour. *)
Definition round_centi (a : N) : N :=
  let q := (a / 10000)%N in
  let r := (a mod 10000)%N in
  if (5000 <? r)%N then q + 1
  else if (r =? 5000)%N && N.odd q then q + 1
  else q.

Definition digits_2f (m : Z) : list ascii :=
  let c := round_centi (Z.abs_N m) in
  (if (m <? 0)%Z then [minus_sign] else [])
    ++ digits_of_N (c / 100) ++ chr 46 :: digits_fixed 2 (c mod 100).

(** The body of an [int()] literal: digits, single underscores between. *)
Fixpoint int_body (after_digit : bool) (acc : N) (l : list ascii) : option N :=
  match l with
  | [] => if after_digit then Some acc else None
  | c :: r =>
      if is_digit c then int_body true (acc * 10 + digit_val c) r
      else if (code c =? 95)%N
           then (if after_digit then int_body false acc r else None)
           else None
  end.

Definition int_literal (l : list ascii) : option Z :=
  match strip_by is_int_space l with
  | [] => None
  | c :: r =>
      if (code c =? 45)%N then option_map (fun n => (- Z.of_N n)%Z) (int_body false 0 r)
      else if (code c =? 43)%N then option_map Z.of_N (int_body false 0 r)
      else option_map Z.of_N (int_body false 0 (c :: r))
  end.

(** ** Python values *)

Inductive pyval : Type :=
| VNone
| VBool (b : bool)
| VInt (n : Z)
| VFloat (micros : Z)
| VStr (s : string)
| VList (items : list pyval)
| VDict (entries : list (string * pyval)).

Definition pydict := list (string * pyval).

(** [d.get(k)] on the entries of a dict. *)
Fixpoint dict_get (d : pydict) (k : string) : option pyval :=
  match d with
  | [] => None
  | (k', v) :: r => if String.eqb k' k then Some v else dict_get r k
  end.

(** [d[k] = v]: an existing key keeps its place, a new one goes last. *)
Fixpoint dict_set (d : pydict) (k : string) (v : pyval) : pydict :=
  match d with
  | [] => [(k, v)]
  | (k', v') :: r =>
      if String.eqb k' k then (k', v) :: r else (k', v') :: dict_set r k v
  end.

(** [d.update(other)] *)
Definition dict_update (d other : pydict) : pydict :=
  fold_left (fun acc kv => dict_set acc (fst kv) (snd kv)) other d.

Definition keys (d : pydict) : list string := map fst d.

Definition million : Z := 1000000.

(** The value of a number in millionths; [bool] counts as 0 or 1. *)
Definition micros_of (v : pyval) : option Z :=
  match v with
  | VInt n => Some (n * million)%Z
  | VFloat m => Some m
  | VBool b => Some (if b then million else 0%Z)
  | _ => None
  end.

(** [a == b]: numbers by value, text by characters, lists item by item,
    dicts key by key whatever the order. *)
Fixpoint py_eqb (a b : pyval) {struct a} : bool :=
  match a, b with
  | VNone, VNone => true
  | VStr s, VStr t => String.eqb s t
  | VList l, VList m =>
      (fix items (l m : list pyval) : bool :=
         match l, m with
         | [], [] => true
         | x :: l', y :: m' => py_eqb x y && items l' m'
         | _, _ => false
         end) l m
  | VDict d, VDict e =>
      Nat.eqb (List.length d) (List.length e)
      && (fix members (d : pydict) : bool :=
            match d with
            | [] => true
            | (k, x) :: d' =>
                match dict_get e k with
                | Some y => py_eqb x y
                | None => false
                end && members d'
            end) d
  | _, _ =>
      match micros_of a, micros_of b with
      | Some m, Some n => Z.eqb m n
      | _, _ => false
      end
  end.

(** ** The [json] codec

    [json_dumps] is [json.dumps(v, ensure_ascii=False, indent=2)] and
    [json_loads] is [json.loads]; [None] stands for [JSONDecodeError].
    The literals [NaN] and [Infinity], which have no value in the number
    model, are not decoded. *)

Module Json.

Definition hex_char (n : N) : ascii :=
  if (n <? 10)%N then chr (48 + n) else chr (87 + n).

(** The replacement of one character inside a string literal: the
    quote, the backslash and the control characters are escaped. *)
Definition escape_char (c : ascii) : list ascii :=
  let n := code c in
  if (n =? 34)%N then [backslash; dquote]
  else if (n =? 92)%N then [backslash; backslash]
  else if (n =? 10)%N then [backslash; chr 110]
  else if (n =? 13)%N then [backslash; chr 114]
  else if (n =? 9)%N then [backslash; chr 116]
  else if (n =? 8)%N then [backslash; chr 98]
  else if (n =? 12)%N then [backslash; chr 102]
  else if (n <? 32)%N
       then [backslash; chr 117; chr 48; chr 48; hex_char (n / 16); hex_char (n mod 16)]
       else [c].

Definition quote (s : string) : list ascii :=
  dquote :: flat_map escape_char (chars s) ++ [dquote].

(** A line break followed by the indentation of nesting level [lvl]. *)
Definition indent (lvl : nat) : list ascii :=
  newline :: repeat (chr 32) (2 * lvl).

Fixpoint enc (lvl : nat) (v : pyval) : list ascii :=
  match v with
  | VNone => chars "null"
  | VBool true => chars "true"
  | VBool false => chars "false"
  | VInt n => digits_of_Z n
  | VFloat m => digits_of_float m
  | VStr s => quote s
  | VList [] => chars "[]"
  | VList (x :: r) =>
      chr 91 :: indent (S lvl) ++ enc (S lvl) x
        ++ (fix items (l : list pyval) : list ascii :=
              match l with
              | [] => []
              | y :: l' => chr 44 :: indent (S lvl) ++ enc (S lvl) y ++ items l'
              end) r
        ++ indent lvl ++ [chr 93]
  | VDict [] => chars "{}"
  | VDict ((k, x) :: r) =>
      chr 123 :: indent (S lvl) ++ quote k ++ chr 58 :: chr 32 :: enc (S lvl) x
        ++ (fix members (l : pydict) : list ascii :=
              match l with
              | [] => []
              | (k', y) :: l' =>
                  chr 44 :: indent (S lvl) ++ quote k' ++ chr 58 :: chr 32
                    :: enc (S lvl) y ++ members l'
              end) r
        ++ indent lvl ++ [chr 125]
  end.

Definition json_dumps (v : pyval) : string := text (enc 0 v).

(** The items of a list after the first, and the members of an object
    after the first, as [enc] lays them out at level [lvl]. *)
Definition enc_items (lvl : nat) (l : list pyval) : list ascii :=
  flat_map (fun y => chr 44 :: indent lvl ++ enc lvl y) l.

Definition enc_member (lvl : nat) (kv : string * pyval) : list ascii :=
  quote (fst kv) ++ chr 58 :: chr 32 :: enc lvl (snd kv).

Definition enc_members (lvl : nat) (d : pydict) : list ascii :=
  flat_map (fun kv => chr 44 :: indent lvl ++ enc_member lvl kv) d.

(** *** Decoding *)

Definition is_ws (c : ascii) : bool :=
  let n := code c in ((n =? 32) || (n =? 9) || (n =? 10) || (n =? 13))%N.

Definition skip_ws (l : list ascii) : list ascii := drop_while is_ws l.

(** UTF-8 bytes of a code point named by a [\u] escape. *)
Definition utf8 (n : N) : list ascii :=
  (if n <? 128 then [chr n]
   else if n <? 2048 then [chr (192 + n / 64); chr (128 + n mod 64)]
   else if n <? 65536
        then [chr (224 + n / 4096); chr (128 + (n / 64) mod 64); chr (128 + n mod 64)]
        else [chr (240 + n / 262144); chr (128 + (n / 4096) mod 64);
              chr (128 + (n / 64) mod 64); chr (128 + n mod 64)])%N.

Definition hex_val (c : ascii) : option N :=
  if is_digit c then Some (code c - 48)%N
  else if between 97 102 c then Some (code c - 87)%N
  else if between 65 70 c then Some (code c - 55)%N
  else None.

Definition simple_escape (c : ascii) : option ascii :=
  let n := code c in
  if (n =? 34)%N then Some dquote
  else if (n =? 92)%N then Some backslash
  else if (n =? 47)%N then Some (chr 47)
  else if (n =? 98)%N then Some (chr 8)
  else if (n =? 102)%N then Some (chr 12)
  else if (n =? 110)%N then Some (chr 10)
  else if (n =? 114)%N then Some (chr 13)
  else if (n =? 116)%N then Some (chr 9)
  else None.

(** Where the scanner of a string literal stands: in plain text, after a
    backslash, or inside a [\u] escape with [k] hex digits to come. *)
Inductive sstate : Type :=
| SNorm
| SEsc
| SUni (k : nat) (acc : N).

Definition emit (cs : list ascii) (r : option (list ascii * list ascii))
  : option (list ascii * list ascii) :=
  match r with
  | Some (s, rest) => Some (cs ++ s, rest)
  | None => None
  end.

Definition flush (pend : option N) : list ascii :=
  match pend with
  | Some h => utf8 h
  | None => []
  end.

Definition is_high (u : N) : bool := ((55296 <=? u) && (u <=? 56319))%N.
Definition is_low (u : N) : bool := ((56320 <=? u) && (u <=? 57343))%N.

(** The text of a string literal whose opening quote has been read, and
    what follows its closing quote. [pend] is a high surrogate waiting
    for its low half. *)
Fixpoint scan (st : sstate) (pend : option N) (l : list ascii)
  : option (list ascii * list ascii) :=
  match l with
  | [] => None
  | c :: r =>
      match st with
      | SNorm =>
          if (code c =? 34)%N then Some (flush pend, r)
          else if (code c =? 92)%N then scan SEsc pend r
          else if (code c <? 32)%N then None
          else emit (flush pend ++ [c]) (scan SNorm None r)
      | SEsc =>
          if (code c =? 117)%N then scan (SUni 4 0) pend r
          else match simple_escape c with
               | Some e => emit (flush pend ++ [e]) (scan SNorm None r)
               | None => None
               end
      | SUni k acc =>
          match hex_val c with
          | None => None
          | Some h =>
              let u := (acc * 16 + h)%N in
              match k with
              | 1%nat =>
                  match pend with
                  | Some hi =>
                      if is_low u
                      then emit (utf8 (65536 + (hi - 55296) * 1024 + (u - 56320))%N)
                                (scan SNorm None r)
                      else if is_high u then emit (utf8 hi) (scan SNorm (Some u) r)
                      else emit (utf8 hi ++ utf8 u) (scan SNorm None r)
                  | None =>
                      if is_high u then scan SNorm (Some u) r
                      else emit (utf8 u) (scan SNorm None r)
                  end
              | S k' => scan (SUni k' u) pend r
              | O => None
              end
          end
      end
  end.

Fixpoint span (p : ascii -> bool) (l : list ascii) : list ascii * list ascii :=
  match l with
  | [] => ([], [])
  | c :: r => if p c then let (a, b) := span p r in (c :: a, b) else ([], l)
  end.

Definition signed (neg : bool) (n : N) : Z :=
  if neg then (- Z.of_N n)%Z else Z.of_N n.

(** The value, in millionths, of mantissa [m] with [k] decimals and
    decimal exponent [e]; digits below a millionth are cut. *)
Definition scale_float (m : N) (k : nat) (e : Z) : N :=
  let shift := (6 + e - Z.of_nat k)%Z in
  if (0 <=? shift)%Z then (m * 10 ^ Z.to_N shift)%N
  else (m / 10 ^ Z.to_N (- shift))%N.

(** The fraction of a number: a point and at least one digit. *)
Definition scan_frac (l : list ascii) : list ascii * list ascii :=
  match l with
  | d :: r =>
      if (code d =? 46)%N
      then match span is_digit r with
           | ([], _) => ([], l)
           | (f, r') => (f, r')
           end
      else ([], l)
  | [] => ([], l)
  end.

(** The exponent of a number: e or E, a sign, at least one digit. *)
Definition scan_exp (l : list ascii) : option Z * list ascii :=
  match l with
  | e :: r =>
      if ((code e =? 101) || (code e =? 69))%N
      then
        let (eneg, r1) :=
          match r with
          | s :: r' =>
              if (code s =? 45)%N then (true, r')
              else if (code s =? 43)%N then (false, r')
              else (false, r)
          | [] => (false, r)
          end in
        match span is_digit r1 with
        | ([], _) => (None, l)
        | (ed, r2) => (Some (signed eneg (val_digits 0 ed)), r2)
        end
      else (None, l)
  | [] => (None, l)
  end.

(** A number after its sign: an integer part (a lone zero, or digits
    that do not start with zero), then the fraction and the exponent if
    any. It is a [float] when it has a fraction or an exponent. *)
Definition scan_unsigned (neg : bool) (l : list ascii) : option (pyval * list ascii) :=
  match l with
  | [] => None
  | c :: r =>
      if negb (is_digit c) then None
      else
        let (ipart, l2) := if (code c =? 48)%N then ([c], r) else span is_digit l in
        let (frac, l3) := scan_frac l2 in
        let (ex, l4) := scan_exp l3 in
        match frac, ex with
        | [], None => Some (VInt (signed neg (val_digits 0 ipart)), l4)
        | _, _ =>
            let m := val_digits (val_digits 0 ipart) frac in
            let e := match ex with Some e => e | None => 0%Z end in
            Some (VFloat (signed neg (scale_float m (List.length frac) e)), l4)
        end
  end.

Definition scan_number (l : list ascii) : option (pyval * list ascii) :=
  match l with
  | c :: r => if (code c =? 45)%N then scan_unsigned true r else scan_unsigned false l
  | [] => None
  end.

Fixpoint starts_with (p l : list ascii) : option (list ascii) :=
  match p, l with
  | [], _ => Some l
  | a :: p', b :: l' => if Ascii.eqb a b then starts_with p' l' else None
  | _ :: _, [] => None
  end.

Fixpoint parse_value (fuel : nat) (l : list ascii) : option (pyval * list ascii) :=
  match fuel with
  | O => None
  | S f =>
      match l with
      | [] => None
      | c :: r =>
          if (code c =? 34)%N then
            match scan SNorm None r with
            | Some (s, r') => Some (VStr (text s), r')
            | None => None
            end
          else if (code c =? 91)%N then
            match skip_ws r with
            | c' :: r' =>
                if (code c' =? 93)%N then Some (VList [], r')
                else parse_items f (skip_ws r) []
            | [] => None
            end
          else if (code c =? 123)%N then
            match skip_ws r with
            | c' :: r' =>
                if (code c' =? 125)%N then Some (VDict [], r')
                else parse_members f (skip_ws r) []
            | [] => None
            end
          else
            match starts_with (chars "null") l with
            | Some r' => Some (VNone, r')
            | None =>
                match starts_with (chars "true") l with
                | Some r' => Some (VBool true, r')
                | None =>
                    match starts_with (chars "false") l with
                    | Some r' => Some (VBool false, r')
                    | None => scan_number l
                    end
                end
            end
      end
  end

with parse_items (fuel : nat) (l : list ascii) (acc : list pyval)
  : option (pyval * list ascii) :=
  match fuel with
  | O => None
  | S f =>
      match parse_value f l with
      | None => None
      | Some (v, r) =>
          match skip_ws r with
          | c :: r' =>
              if (code c =? 44)%N then parse_items f (skip_ws r') (acc ++ [v])
              else if (code c =? 93)%N then Some (VList (acc ++ [v]), r')
              else None
          | [] => None
          end
      end
  end

with parse_members (fuel : nat) (l : list ascii) (acc : pydict)
  : option (pyval * list ascii) :=
  match fuel with
  | O => None
  | S f =>
      match l with
      | [] => None
      | c :: r =>
          if negb (code c =? 34)%N then None
          else
            match scan SNorm None r with
            | None => None
            | Some (k, r1) =>
                match skip_ws r1 with
                | [] => None
                | c1 :: r2 =>
                    if negb (code c1 =? 58)%N then None
                    else
                      match parse_value f (skip_ws r2) with
                      | None => None
                      | Some (v, r3) =>
                          match skip_ws r3 with
                          | [] => None
                          | c3 :: r4 =>
                              if (code c3 =? 44)%N
                              then parse_members f (skip_ws r4) (dict_set acc (text k) v)
                              else if (code c3 =? 125)%N
                                   then Some (VDict (dict_set acc (text k) v), r4)
                                   else None
                          end
                      end
                end
            end
      end
  end.

(** [json.loads]: one value, blank space around it, and nothing else. *)
Definition json_loads (s : string) : option pyval :=
  let l := chars s in
  match parse_value (S (List.length l)) (skip_ws l) with
  | Some (v, r) =>
      match skip_ws r with
      | [] => Some v
      | _ :: _ => None
      end
  | None => None
  end.

End Json.

(** ** Text forms of values *)

Definition squote : ascii := chr 39.

Definition repr_char (q : ascii) (c : ascii) : list ascii :=
  let n := code c in
  if (n =? 92)%N then [backslash; backslash]
  else if Ascii.eqb c q then [backslash; c]
  else if (n =? 10)%N then [backslash; chr 110]
  else if (n =? 13)%N then [backslash; chr 114]
  else if (n =? 9)%N then [backslash; chr 116]
  else if ((n <? 32) || (n =? 127))%N
       then [backslash; chr 120; Json.hex_char (n / 16); Json.hex_char (n mod 16)]
       else [c].

(** [repr(s)] of a [str]: single quotes, unless the text holds a single
    quote and no double quote. *)
Definition repr_str (s : string) : list ascii :=
  let l := chars s in
  let q := if existsb (Ascii.eqb squote) l && negb (existsb (Ascii.eqb dquote) l)
           then dquote else squote in
  q :: flat_map (repr_char q) l ++ [q].

Fixpoint repr_chars (v : pyval) : list ascii :=
  match v with
  | VNone => chars "None"
  | VBool true => chars "True"
  | VBool false => chars "False"
  | VInt n => digits_of_Z n
  | VFloat m => digits_of_float m
  | VStr s => repr_str s
  | VList l =>
      chr 91 ::
        (fix items (first : bool) (l : list pyval) : list ascii :=
           match l with
           | [] => []
           | y :: l' =>
               (if first then [] else chars ", ") ++ repr_chars y ++ items false l'
           end) true l
        ++ [chr 93]
  | VDict d =>
      chr 123 ::
        (fix members (first : bool) (l : pydict) : list ascii :=
           match l with
           | [] => []
           | (k, y) :: l' =>
               (if first then [] else chars ", ")
                 ++ repr_str k ++ chars ": " ++ repr_chars y ++ members false l'
           end) true d
        ++ [chr 125]
  end.

Definition py_repr (v : pyval) : string := text (repr_chars v).

(** [str(v)], which is also what [{v}] gives inside an f-string. *)
Definition py_str (v : pyval) : string :=
  match v with
  | VStr s => s
  | _ => py_repr v
  end.

Definition type_name (v : pyval) : string :=
  match v with
  | VNone => "NoneType"
  | VBool _ => "bool"
  | VInt _ => "int"
  | VFloat _ => "float"
  | VStr _ => "str"
  | VList _ => "list"
  | VDict _ => "dict"
  end.

(** ** Exceptions *)

Record exn : Type := Exn { exn_class : string; exn_text : string }.

Inductive result (A : Type) : Type :=
| Ok (a : A)
| Raise (e : exn).

Arguments Ok {A} a.
Arguments Raise {A} e.

Definition q1 (s : string) : string := ("'" ++ s ++ "'")%string.

(** [v[k]] for a [str] key [k]. *)
Definition py_getitem (v : pyval) (k : string) : result pyval :=
  match v with
  | VDict d =>
      match dict_get d k with
      | Some x => Ok x
      | None => Raise (Exn "KeyError" (text (repr_str k)))
      end
  | VStr _ => Raise (Exn "TypeError" "string indices must be integers, not 'str'")
  | VList _ => Raise (Exn "TypeError" "list indices must be integers or slices, not str")
  | _ => Raise (Exn "TypeError" (q1 (type_name v) ++ " object is not subscriptable"))
  end.

(** [v.get(k, default)] *)
Definition py_get (v : pyval) (k : string) (default : pyval) : result pyval :=
  match v with
  | VDict d =>
      match dict_get d k with
      | Some x => Ok x
      | None => Ok default
      end
  | _ => Raise (Exn "AttributeError"
                  (q1 (type_name v) ++ " object has no attribute 'get'"))
  end.

(** The items a [for] loop or a generator draws from [v]. *)
Definition py_iter (v : pyval) : result (list pyval) :=
  match v with
  | VList l => Ok l
  | VDict d => Ok (map VStr (keys d))
  | VStr s => Ok (map (fun c => VStr (String c "")) (chars s))
  | _ => Raise (Exn "TypeError" (q1 (type_name v) ++ " object is not iterable"))
  end.

(** [v[k] = x] for a [str] key [k]. *)
Definition py_setitem (v : pyval) (k : string) (x : pyval) : result pyval :=
  match v with
  | VDict d => Ok (VDict (dict_set d k x))
  | VList _ => Raise (Exn "TypeError" "list indices must be integers or slices, not str")
  | _ => Raise (Exn "TypeError"
                  (q1 (type_name v) ++ " object does not support item assignment"))
  end.

(** [v.update(other)] *)
Definition py_update (v other : pyval) : result pyval :=
  match v, other with
  | VDict d, VDict o => Ok (VDict (dict_update d o))
  | VDict _, _ =>
      Raise (Exn "TypeError" (q1 (type_name other) ++ " object is not iterable"))
  | _, _ => Raise (Exn "AttributeError"
                     (q1 (type_name v) ++ " object has no attribute 'update'"))
  end.

(** [v.append(x)] *)
Definition py_append (v x : pyval) : result pyval :=
  match v with
  | VList l => Ok (VList (l ++ [x]))
  | _ => Raise (Exn "AttributeError"
                  (q1 (type_name v) ++ " object has no attribute 'append'"))
  end.

(** [t - v] for a [float] [t]. *)
Definition float_minus (t : Z) (v : pyval) : result Z :=
  match micros_of v with
  | Some m => Ok (t - m)%Z
  | None => Raise (Exn "TypeError"
                     ("unsupported operand type(s) for -: 'float' and "
                        ++ q1 (type_name v)))
  end.

(** [int(s)] *)
Definition py_int (s : string) : result Z :=
  match int_literal (chars s) with
  | Some z => Ok z
  | None => Raise (Exn "ValueError"
                     ("invalid literal for int() with base 10: "
                        ++ text (repr_str s)))
  end.

(** [format(v, '.2f')] *)
Definition format_2f (v : pyval) : result string :=
  match micros_of v with
  | Some m => Ok (text (digits_2f m))
  | None =>
      match v with
      | VStr _ => Raise (Exn "ValueError"
                           "Unknown format code 'f' for object of type 'str'")
      | _ => Raise (Exn "TypeError"
                      ("unsupported format string passed to "
                         ++ type_name v ++ ".__format__"))
      end
  end.

(** ** The world *)

(** What [JavaServer(host, port).status()] answers. *)
Record reply : Type := Reply {
  version_name : string;
  players_online : Z;
  players_max : Z;
  description : string;
  latency : Z
}.

(** - [fs]: the text of [servers.json], [None] when the file is absent;
    - [clock], [ticks]: the successive readings of [time.time()] and how
      many were taken;
    - [net], [queries]: the outcome of the status query number [n] for a
      host and a port, and the queries made so far;
    - [log]: the lines given to [app.logger]. *)
Record World : Type := mkWorld {
  fs : option string;
  clock : nat -> Z;
  ticks : nat;
  net : nat -> string -> Z -> result reply;
  queries : list (string * Z);
  log : list string
}.

Definition set_fs (f : option string) (w : World) : World :=
  mkWorld f (clock w) (ticks w) (net w) (queries w) (log w).

Definition set_ticks (n : nat) (w : World) : World :=
  mkWorld (fs w) (clock w) n (net w) (queries w) (log w).

Definition set_queries (q : list (string * Z)) (w : World) : World :=
  mkWorld (fs w) (clock w) (ticks w) (net w) q (log w).

Definition set_log (l : list string) (w : World) : World :=
  mkWorld (fs w) (clock w) (ticks w) (net w) (queries w) l.

(** Computations on the world which return or raise. *)
Definition M (A : Type) : Type := World -> result A * World.

Definition ret {A : Type} (a : A) : M A := fun w => (Ok a, w).

Definition bind {A B : Type} (m : M A) (k : A -> M B) : M B :=
  fun w =>
    match m w with
    | (Ok a, w') => k a w'
    | (Raise e, w') => (Raise e, w')
    end.

Definition lift {A : Type} (r : result A) : M A := fun w => (r, w).

(** [try: m  except Exception as e: h e] *)
Definition try_except {A : Type} (m : M A) (h : exn -> M A) : M A :=
  fun w =>
    match m w with
    | (Ok a, w') => (Ok a, w')
    | (Raise e, w') => h e w'
    end.

Declare Scope py_scope.
Delimit Scope py_scope with py.
Notation "x <- m ;; k" := (bind m (fun x => k))
  (at level 61, m at next level, right associativity) : py_scope.
Notation "m ;;; k" := (bind m (fun _ => k))
  (at level 61, right associativity) : py_scope.
Local Open Scope py_scope.

(** [time.time()] *)
Definition time_time : M Z :=
  fun w => (Ok (clock w (ticks w)), set_ticks (S (ticks w)) w).

(** [JavaServer(host, port).status()] *)
Definition java_status (host : string) (port : Z) : M reply :=
  fun w =>
    (net w (List.length (queries w)) host port,
     set_queries (queries w ++ [(host, port)]) w).

Definition logger (line : string) : M unit :=
  fun w => (Ok tt, set_log (log w ++ [line]) w).

(** ** [run.py] *)

(** [load_servers]: the decoded file, or the empty list when the file
    is absent or [json.load] raises [JSONDecodeError]. *)
Definition load_servers : M pyval :=
  fun w =>
    match fs w with
    | Some contents =>
        match Json.json_loads contents with
        | Some v => (Ok v, w)
        | None => (Ok (VList []), w)
        end
    | None => (Ok (VList []), w)
    end.

(** [save_servers]: the file is replaced by the dump of [servers]. *)
Definition save_servers (servers : pyval) : M unit :=
  fun w => (Ok tt, set_fs (Some (Json.json_dumps servers)) w).

(** Lines 34-35 of [ping_server]: [if ':' not in address: address +=
    ':25565'], for any object passed as [address]. A list is extended
    by the six characters, a dict cannot be added to. *)
Definition with_port (address : pyval) : result pyval :=
  match address with
  | VStr s => Ok (VStr (if has_colon s then s else s ++ ":25565"))
  | VList l =>
      Ok (if existsb (fun x => py_eqb x (VStr ":")) l then address
          else VList (l ++ map (fun c => VStr (String c "")) (chars ":25565")))
  | VDict d =>
      if existsb (String.eqb ":") (keys d) then Ok address
      else Raise (Exn "TypeError"
                    "unsupported operand type(s) for +=: 'dict' and 'str'")
  | _ => Raise (Exn "TypeError"
                  ("argument of type " ++ q1 (type_name address)
                     ++ " is not iterable"))
  end.

(** The result of a successful probe (lines 43-52). *)
Definition online_info (st : reply) (now : Z) (address : pyval) : pydict :=
  [("status", VStr "online");
   ("version", VStr (version_name st));
   ("players_online", VInt (players_online st));
   ("players_max", VInt (players_max st));
   ("description", VStr (description st));
   ("latency", VFloat (latency st));
   ("last_checked", VFloat now);
   ("address", address)].

(** The result built by the handler (lines 54-59). *)
Definition offline_info (e : exn) (address : pyval) (now : Z) : pydict :=
  [("status", VStr "offline");
   ("error", VStr (exn_text e));
   ("address", address);
   ("last_checked", VFloat now)].

(** Lines 37-52, once [address] has its port: split, convert the port,
    query, build the result. *)
Definition ping_query (address : pyval) : M pyval :=
  match address with
  | VStr s =>
      let (host, port) := split_colon (chars s) in
      port <- lift (py_int (text port)) ;;
      st <- java_status (text host) port ;;
      now <- time_time ;;
      ret (VDict (online_info st now address))
  | _ => lift (Raise (Exn "AttributeError"
                        (q1 (type_name address)
                           ++ " object has no attribute 'split'")))
  end.

(** [ping_server]: the handler sees [address] as the [try] block left
    it, with the port when line 35 was reached. *)
Definition ping_server (address : pyval) : M pyval :=
  match with_port address with
  | Ok address' =>
      try_except (ping_query address')
        (fun e => now <- time_time ;; ret (VDict (offline_info e address' now)))
  | Raise e =>
      now <- time_time ;; ret (VDict (offline_info e address now))
  end.

Definition grace : Z := (300 * million)%Z.

(** The body of the [for] loop of [server_checker] (lines 69-79), with
    [updated_servers] passed in and out. *)
Definition check_server (server : pyval) (updated : list pyval) : M (list pyval) :=
  now <- time_time ;;
  added <- lift (py_get server "added_time" (VInt 0)) ;;
  age <- lift (float_minus now added) ;;
  if (grace <? age)%Z then
    address <- lift (py_getitem server "address") ;;
    status <- ping_server address ;;
    st <- lift (py_getitem status "status") ;;
    if py_eqb st (VStr "online") then
      server' <- lift (py_update server status) ;;
      ret (updated ++ [server'])
    else ret updated
  else ret (updated ++ [server]).

Fixpoint check_loop (servers : list pyval) (updated : list pyval) : M (list pyval) :=
  match servers with
  | [] => ret updated
  | server :: rest =>
      updated' <- check_server server updated ;;
      check_loop rest updated'
  end.

(** Lines 65-82: the [try] block of one turn of the loop. *)
Definition check_all : M unit :=
  loaded <- load_servers ;;
  servers <- lift (py_iter loaded) ;;
  updated <- check_loop servers [] ;;
  save_servers (VList updated) ;;;
  logger (text (chars "Server check completed. Online: "
                  ++ digits_of_N (N.of_nat (List.length updated)))).

(** One turn of [while True] in [server_checker]: whatever is raised is
    logged; then the thread sleeps. *)
Definition server_checker_cycle : M unit :=
  try_except check_all
    (fun e => logger ("Server checker error: " ++ exn_text e)).

(** *** The add-server handler *)

(** [re.match(r'^[\w\.\-]+(:\d+)?$', s)]: host characters, then
    possibly a colon and digits, up to the end of the text or to a line
    break that ends it. *)
Definition is_host_char (c : ascii) : bool :=
  is_word c || (code c =? 46)%N || (code c =? 45)%N.

Definition at_end (l : list ascii) : bool :=
  match l with
  | [] => true
  | [c] => (code c =? 10)%N
  | _ => false
  end.

Definition re_match (s : string) : bool :=
  match chars s with
  | [] => false
  | c :: r =>
      is_host_char c &&
      match drop_while is_host_char r with
      | [] => true
      | d :: r' =>
          if (code d =? 58)%N then
            match r' with
            | [] => false
            | e :: r'' => is_digit e && at_end (drop_while is_digit r'')
            end
          else at_end (d :: r')
      end
  end.

(** What [jsonify] sends: the HTTP status and the fields of the object. *)
Record response : Type := Response {
  http_status : nat;
  payload : list (string * string)
}.

(** [any(s['address'] == server_info['address'] for s in servers)] *)
Fixpoint any_address (servers : list pyval) (server_info : pyval) : result bool :=
  match servers with
  | [] => Ok false
  | s :: rest =>
      match py_getitem s "address" with
      | Raise e => Raise e
      | Ok a =>
          match py_getitem server_info "address" with
          | Raise e => Raise e
          | Ok target =>
              if py_eqb a target then Ok true else any_address rest server_info
          end
      end
  end.

Definition dq : string := String dquote "".
Definition nl : string := String newline "".

(** The f-string of lines 151-162. *)
Definition render (address : string) (server_info : pyval) : M string :=
  version <- lift (py_getitem server_info "version") ;;
  online <- lift (py_getitem server_info "players_online") ;;
  max <- lift (py_getitem server_info "players_max") ;;
  latency <- lift (py_getitem server_info "latency") ;;
  latency_2f <- lift (format_2f latency) ;;
  description <- lift (py_getitem server_info "description") ;;
  ret (nl
    ++ "        <div class=" ++ dq ++ "server-stats" ++ dq ++ " style=" ++ dq
    ++ "margin-top: 20px; padding: 15px; background: #f8f8f8; border-radius: 5px;"
    ++ dq ++ ">" ++ nl
    ++ "            <h3>Статус сервера</h3>" ++ nl
    ++ "            <p><strong>Адрес:</strong> " ++ address ++ "</p>" ++ nl
    ++ "            <p><strong>Статус:</strong> <span style=" ++ dq
    ++ "color: green; font-weight: bold;" ++ dq ++ ">Онлайн ✓</span></p>" ++ nl
    ++ "            <p><strong>Версия:</strong> " ++ py_str version ++ "</p>" ++ nl
    ++ "            <p><strong>Игроки:</strong> " ++ py_str online ++ "/"
    ++ py_str max ++ "</p>" ++ nl
    ++ "            <p><strong>Задержка:</strong> " ++ latency_2f ++ " ms</p>" ++ nl
    ++ "            <p><strong>Описание:</strong> " ++ py_str description ++ "</p>" ++ nl
    ++ "            <p style=" ++ dq ++ "color: green; font-weight: bold;" ++ dq
    ++ ">Сервер добавлен в мониторинг!</p>" ++ nl
    ++ "        </div>" ++ nl
    ++ "        ")%string.

(** Lines 142-148: the list is loaded, and the probed server is stamped,
    appended and saved unless its address is already there. *)
Definition remember (server_info : pyval) : M pyval :=
  servers <- load_servers ;;
  items <- lift (py_iter servers) ;;
  known <- lift (any_address items server_info) ;;
  if known then ret server_info
  else
    now <- time_time ;;
    server_info' <- lift (py_setitem server_info "added_time" (VFloat now)) ;;
    servers' <- lift (py_append servers server_info') ;;
    save_servers servers' ;;;
    ret server_info'.

(** [add_server], for the [address] field of the submitted form
    ([None] when the form has no such field). *)
Definition add_server (form_address : option string) : M response :=
  let address := strip (match form_address with Some a => a | None => "" end) in
  if String.eqb address "" then
    ret (Response 400 [("error", "Не введено название сервера")])
  else if negb (re_match address) then
    ret (Response 400 [("error", "Неверный формат адреса")])
  else
    server_info <- ping_server (VStr address) ;;
    status <- lift (py_getitem server_info "status") ;;
    if py_eqb status (VStr "online") then
      server_info' <- remember server_info ;;
      html <- render address server_info' ;;
      ret (Response 200 [("html", html)])
    else
      error <- lift (py_get server_info "error" (VStr "Unknown error")) ;;
      ret (Response 200
             [("error",
               ("<div class=" ++ dq ++ "error" ++ dq ++ " style=" ++ dq
                  ++ "color:red; margin-top:20px;" ++ dq
                  ++ ">Сервер не отвечает: " ++ py_str error ++ "</div>")%string)]).

(** *** The list page *)

(** [x / n] for a [float] [x] and a whole number [n]; digits below a
    millionth are cut. *)
Definition float_div (x n : Z) : Z := Z.quot x n.

(** [int(x)] for a [float] [x]: its whole part, toward zero. *)
Definition int_of_float (x : Z) : Z := Z.quot x million.

(** The body of the [for] loop of [serve_index] (lines 115-117). The
    attribute [server.get] is looked up before its arguments are
    evaluated, so an object without it raises before the clock is read;
    the default [time.time()] is evaluated whether the key is there or
    not. *)
Definition add_label (server : pyval) : M pyval :=
  match server with
  | VDict d =>
      default <- time_time ;;
      let added_time :=
        match dict_get d "added_time" with
        | Some x => x
        | None => VFloat default
        end in
      now <- time_time ;;
      age <- lift (float_minus now added_time) ;;
      let minutes_ago := int_of_float (float_div age 60) in
      lift (py_setitem server "added_str"
              (VStr (if (0 <? minutes_ago)%Z
                     then (py_str (VInt minutes_ago) ++ " минут назад")%string
                     else "только что")))
  | _ => lift (Raise (Exn "AttributeError"
                        (q1 (type_name server) ++ " object has no attribute 'get'")))
  end.

Fixpoint label_loop (servers : list pyval) : M (list pyval) :=
  match servers with
  | [] => ret []
  | server :: rest =>
      server' <- add_label server ;;
      rest' <- label_loop rest ;;
      ret (server' :: rest')
  end.

(** [serve_index], up to the call of [render_template]: the value it
    passes as [servers]. The loop changes the items of a list in place;
    an iterable of another kind is passed as it is, and the loop gets
    through it only when it has no item. *)
Definition serve_index : M pyval :=
  servers <- load_servers ;;
  items <- lift (py_iter servers) ;;
  items' <- label_loop items ;;
  ret (match servers with
       | VList _ => VList items'
       | _ => servers
       end).

(** ** Well-formed values *)

Fixpoint unique (l : list string) : bool :=
  match l with
  | [] => true
  | k :: r => negb (existsb (String.eqb k) r) && unique r
  end.

(** Every dict inside [v] has each key once, as a Python dict does. *)
Fixpoint wf (v : pyval) : bool :=
  match v with
  | VList l =>
      (fix all (l : list pyval) : bool :=
         match l with
         | [] => true
         | x :: r => wf x && all r
         end) l
  | VDict d =>
      unique (keys d)
      && (fix all (d : pydict) : bool :=
            match d with
            | [] => true
            | (_, x) :: r => wf x && all r
            end) d
  | _ => true
  end.

(** The number of calls the decoder spends on [v]. *)
Fixpoint weight (v : pyval) : nat :=
  match v with
  | VList l =>
      S ((fix sum (l : list pyval) : nat :=
            match l with
            | [] => O
            | x :: r => S (weight x + sum r)
            end) l)
  | VDict d =>
      S ((fix sum (d : pydict) : nat :=
            match d with
            | [] => O
            | (_, x) :: r => S (weight x + sum r)
            end) d)
  | _ => 1%nat
  end.

(** What may follow a numeral without being read as part of it. *)
Definition stops (l : list ascii) : bool :=
  match l with
  | [] => true
  | c :: _ =>
      negb (is_digit c) && negb (code c =? 46)%N
        && negb (code c =? 101)%N && negb (code c =? 69)%N
  end.

(** What may follow the digits of a numeral. *)
Definition no_digit (l : list ascii) : bool :=
  match l with
  | [] => true
  | c :: _ => negb (is_digit c)
  end.

(** The first character of a value: not blank, and not a closing
    bracket or brace. *)
Definition opens (l : list ascii) : bool :=
  match l with
  | [] => false
  | c :: _ =>
      negb (Json.is_ws c) && negb (code c =? 93)%N && negb (code c =? 125)%N
  end.

(** The first character of a numeral. *)
Definition num_start (c : ascii) : bool := is_digit c || (code c =? 45)%N.

(** The decoder reads the text of [v] back as [v], whatever follows. *)
Definition reads_back (v : pyval) : Prop :=
  wf v = true ->
  forall lvl rest fuel,
    (weight v <= fuel)%nat -> stops rest = true ->
    Json.parse_value fuel (Json.enc lvl v ++ rest) = Some (v, rest).

(** ** Notions used by the statements *)

(** The list a reader of the storage file gets. *)
Definition stored (w : World) : pyval :=
  match fs w with
  | Some contents =>
      match Json.json_loads contents with
      | Some v => v
      | None => VList []
      end
  | None => VList []
  end.

(** The age reference of an entry, in millionths of a second:
    [server.get('added_time', 0)] when it is a number. *)
Definition added_micros (server : pyval) : option Z :=
  match py_get server "added_time" (VInt 0) with
  | Ok a => micros_of a
  | Raise _ => None
  end.

(** An entry the refresher can handle: a dict with an address and with
    no [added_time] or a numeric one. *)
Definition entry_ok (server : pyval) : bool :=
  match server with
  | VDict d =>
      match dict_get d "address", added_micros server with
      | Some _, Some _ => true
      | _, _ => false
      end
  | _ => false
  end.

(** The address under which an entry is filed. *)
Definition address_of (server : pyval) : option pyval :=
  match server with
  | VDict d => dict_get d "address"
  | _ => None
  end.

(** The address of the entry is a text with a port. *)
Definition has_port (server : pyval) : bool :=
  match address_of server with
  | Some (VStr a) => has_colon a
  | _ => false
  end.

(** The entry is a dict with an address. *)
Definition has_address (server : pyval) : bool :=
  match address_of server with
  | Some _ => true
  | None => false
  end.

(** The address as the prober files it: with the default port when the
    text has no colon. *)
Definition normalized (address : string) : string :=
  if has_colon address then address else (address ++ ":25565")%string.

(** How many entries of [servers] are filed under the text [a]. *)
Definition count_address (a : string) (servers : list pyval) : nat :=
  List.length
    (filter (fun s => match address_of s with
                      | Some x => py_eqb x (VStr a)
                      | None => false
                      end) servers).

(** [needle] occurs in [hay]. *)
Definition contains (needle hay : string) : Prop :=
  exists before after, hay = (before ++ needle ++ after)%string.

(** The world moved on from [w] to [w']: time was read and queries were
    made, nothing else changed. *)
Definition advances (w w' : World) : Prop :=
  clock w' = clock w /\ net w' = net w /\ fs w' = fs w /\ log w' = log w
  /\ (ticks w <= ticks w')%nat
  /\ exists qs, queries w' = queries w ++ qs.

(** An entry of the saved list that was kept without a probe: it is an
    entry of [servers], and at some reading of the clock taken between
    [w] and [w'] it was within the grace period. *)
Definition kept_in_grace (w w' : World) (servers : list pyval) (e : pyval) : Prop :=
  In e servers
  /\ exists k m, (ticks w <= k < ticks w')%nat
                 /\ added_micros e = Some m /\ (clock w k - m <= grace)%Z.

(** An entry of the saved list that was probed and found online: an
    entry of [servers] updated with the result of a probe stamped with
    a reading of the clock taken between [w] and [w']. *)
Definition kept_online (w w' : World) (servers : list pyval) (e : pyval) : Prop :=
  exists d address st a k,
    In (VDict d) servers /\ (ticks w <= k < ticks w')%nat
    /\ dict_get d "address" = Some address /\ with_port address = Ok a
    /\ e = VDict (dict_update d (online_info st (clock w k) a)).

(** [l1] is [l2] with some items left out, the others in their order. *)
Inductive subseq {A : Type} : list A -> list A -> Prop :=
| subseq_nil : subseq [] []
| subseq_skip (x : A) (l1 l2 : list A) : subseq l1 l2 -> subseq l1 (x :: l2)
| subseq_keep (x : A) (l1 l2 : list A) : subseq l1 l2 -> subseq (x :: l1) (x :: l2).

(** The stored list as the service keeps it: entries fit for the
    refresher, filed under texts with a port, no two under the same
    address. *)
Definition well_kept (servers : list pyval) : Prop :=
  forallb entry_ok servers = true
  /\ forallb has_port servers = true
  /\ NoDup (map address_of servers).

(** An entry the list page can label: a dict with no [added_time] or a
    numeric one. *)
Definition dated (server : pyval) : bool :=
  match server with
  | VDict _ =>
      match added_micros server with
      | Some _ => true
      | None => false
      end
  | _ => false
  end.

(** What the service is asked to do, one thing after another: a turn of
    the background loop, a submission of the form, a visit of the list
    page. *)
Inductive request : Type :=
| Turn
| Submit (form : option string)
| Page.

Definition serve (r : request) (w : World) : World :=
  match r with
  | Turn => snd (server_checker_cycle w)
  | Submit form => snd (add_server form w)
  | Page => snd (serve_index w)
  end.

Definition serve_all (rs : list request) (w : World) : World :=
  fold_left (fun w r => serve r w) rs w.

(** The eight fields a successful probe returns. *)
Definition probe_keys : list string :=
  ["status"; "version"; "players_online"; "players_max"; "description";
   "latency"; "last_checked"; "address"].

(** ** Induction on values

    The induction principle that reaches the items of lists and the
    values of dicts. *)

Section PyvalInduction.
Variable P : pyval -> Prop.
Hypothesis HNone : P VNone.
Hypothesis HBool : forall b, P (VBool b).
Hypothesis HInt : forall n, P (VInt n).
Hypothesis HFloat : forall m, P (VFloat m).
Hypothesis HStr : forall s, P (VStr s).
Hypothesis HList : forall l, Forall P l -> P (VList l).
Hypothesis HDict : forall d, Forall (fun kv => P (snd kv)) d -> P (VDict d).

Fixpoint pyval_induction (v : pyval) : P v :=
  match v with
  | VNone => HNone
  | VBool b => HBool b
  | VInt n => HInt n
  | VFloat m => HFloat m
  | VStr s => HStr s
  | VList l =>
      HList l
        ((fix all (l : list pyval) : Forall P l :=
            match l with
            | [] => Forall_nil P
            | x :: r => Forall_cons x (pyval_induction x) (all r)
            end) l)
  | VDict d =>
      HDict d
        ((fix all (d : pydict) : Forall (fun kv => P (snd kv)) d :=
            match d with
            | [] => Forall_nil _
            | kv :: r =>
                Forall_cons kv
                  (match kv return P (snd kv) with
                   | (_, x) => pyval_induction x
                   end) (all r)
            end) d)
  end.
End PyvalInduction.

(** ** Sample worlds

    A clock that advances by one second at each of its first readings,
    from second 1700000000 on, and a network on which only
    [mc.example.com] answers. *)

Definition sample_reply : reply :=
  Reply "1.20.1" 5 20 "A Minecraft Server" 45123456.

Definition sample_readings : list Z :=
  map (fun s => (s * million)%Z)
    [1700000000; 1700000001; 1700000002; 1700000003; 1700000004; 1700000005;
     1700000006; 1700000007; 1700000008; 1700000009; 1700000010; 1700000011]%Z.

Definition sample_clock (k : nat) : Z :=
  nth k sample_readings (1700000012 * million)%Z.

Definition sample_net (n : nat) (host : string) (port : Z) : result reply :=
  if String.eqb host "mc.example.com" then Ok sample_reply
  else Raise (Exn "ConnectionRefusedError" "[Errno 111] Connection refused").

(** An entry as [add_server] files it at second [added]. *)
Definition sample_entry (address : string) (added : Z) : pyval :=
  VDict (dict_set (online_info sample_reply (added * million) (VStr address))
           "added_time" (VFloat (added * million))).

Definition entry_online : pyval := sample_entry "mc.example.com:25565" 1699999000.
Definition entry_offline : pyval := sample_entry "gone.example.com:25565" 1699999000.
Definition entry_fresh : pyval := sample_entry "new.example.com:25565" 1699999900.

Definition sample_servers : list pyval := [entry_online; entry_offline; entry_fresh].

(** The world with no storage file. *)
Definition empty_world : World := mkWorld None sample_clock 0 sample_net [] [].

(** The world whose storage file was saved from [servers]. *)
Definition world_with (servers : list pyval) : World :=
  mkWorld (Some (Json.json_dumps (VList servers))) sample_clock 0 sample_net [] [].

(** A storage file with an item that is not an entry, between two
    entries. *)
Definition junk_servers : list pyval := [entry_online; VStr "junk"; entry_fresh].

(** A storage file that holds a JSON object instead of a list. *)
Definition object_world : World := set_fs (Some "{}") empty_world.


(** A submission, a turn of the loop and a visit of the list page. *)
Definition sample_requests : list request :=
  [Submit (Some "mc.example.com"); Turn; Page].


Definition info_of (r : result pyval * World) : pydict :=
  match fst r with
  | Ok (VDict d) => d
  | _ => []
  end.

(** * Facts *)

Arguments code : simpl never.
Arguments chr : simpl never.
Arguments between : simpl never.
Arguments is_digit : simpl never.
Arguments is_word : simpl never.
Arguments is_space : simpl never.
Arguments digit_char : simpl never.
Arguments digit_val : simpl never.
Arguments digits_of_N : simpl never.

(** ** Characters and numerals *)

Lemma code_chr (n : N) : (n < 256)%N -> code (chr n) = n.
Proof. apply N_ascii_embedding. Qed.


Lemma code_lt (c : ascii) : (code c < 256)%N.
Proof. apply N_ascii_bounded. Qed.


Lemma text_chars (s : string) : text (chars s) = s.
Proof. apply string_of_list_ascii_of_string. Qed.

Lemma chars_text (l : list ascii) : chars (text l) = l.
Proof. apply list_ascii_of_string_of_list_ascii. Qed.

Lemma digit_char_code (d : N) : (d < 10)%N -> code (digit_char d) = (48 + d)%N.
Proof. intros H. unfold digit_char. apply code_chr. lia. Qed.

Lemma digit_char_digit (d : N) : (d < 10)%N -> is_digit (digit_char d) = true.
Proof.
  intros H. unfold is_digit, between. rewrite digit_char_code by assumption.
  apply andb_true_iff. split; apply N.leb_le; lia.
Qed.

Lemma digit_val_char (d : N) : (d < 10)%N -> digit_val (digit_char d) = d.
Proof. intros H. unfold digit_val. rewrite digit_char_code by assumption. lia. Qed.

Lemma val_digits_app (a : N) (x y : list ascii) :
  val_digits a (x ++ y) = val_digits (val_digits a x) y.
Proof. revert a. induction x as [|c x IH]; intros a; simpl; auto. Qed.

Lemma digits_aux_acc (f : nat) : forall n acc,
  digits_aux f n acc = digits_aux f n [] ++ acc.
Proof.
  induction f as [|f IH]; intros n acc; simpl; [reflexivity|].
  destruct (n <? 10)%N; [reflexivity|].
  rewrite IH. rewrite (IH _ [_]). rewrite <- app_assoc. reflexivity.
Qed.

Lemma mod10_lt (n : N) : (n mod 10 < 10)%N.
Proof. apply N.mod_upper_bound. discriminate. Qed.

Lemma digits_aux_val (f : nat) : forall n,
  (n < 2 ^ N.of_nat f)%N -> val_digits 0 (digits_aux f n []) = n.
Proof.
  induction f as [|f IH]; intros n Hn.
  - simpl in Hn. assert (n = 0%N) by lia. subst. reflexivity.
  - simpl digits_aux. destruct (N.ltb_spec n 10) as [Hlt|Hge].
    + simpl. rewrite digit_val_char by assumption. lia.
    + rewrite digits_aux_acc, val_digits_app. rewrite IH.
      * simpl. rewrite digit_val_char by apply mod10_lt.
        pose proof (N.div_mod n 10). lia.
      * rewrite Nat2N.inj_succ, N.pow_succ_r' in Hn.
        apply N.Div0.div_lt_upper_bound. lia.
Qed.

Lemma digits_fuel (n : N) : (n < 2 ^ N.of_nat (S (N.to_nat (N.log2 n))))%N.
Proof.
  rewrite Nat2N.inj_succ, N2Nat.id.
  destruct (N.eq_dec n 0) as [->|Hn]; [reflexivity|].
  apply N.log2_spec. lia.
Qed.

Lemma digits_of_N_val (n : N) : val_digits 0 (digits_of_N n) = n.
Proof. apply digits_aux_val, digits_fuel. Qed.

Lemma digits_aux_all (f : nat) : forall n acc,
  forallb is_digit acc = true -> forallb is_digit (digits_aux f n acc) = true.
Proof.
  induction f as [|f IH]; intros n acc Hacc; simpl; [assumption|].
  destruct (N.ltb_spec n 10) as [Hlt|Hge].
  - simpl. rewrite digit_char_digit by assumption. assumption.
  - apply IH. simpl. rewrite digit_char_digit by apply mod10_lt. assumption.
Qed.

Lemma digits_of_N_all (n : N) : forallb is_digit (digits_of_N n) = true.
Proof. apply digits_aux_all. reflexivity. Qed.

Lemma digits_aux_head (f : nat) : forall n acc,
  (0 < n)%N -> (n < 2 ^ N.of_nat f)%N ->
  exists c r, digits_aux f n acc = c :: r /\ is_digit c = true /\ code c <> 48%N.
Proof.
  induction f as [|f IH]; intros n acc Hpos Hn.
  - simpl in Hn. lia.
  - simpl digits_aux. destruct (N.ltb_spec n 10) as [Hlt|Hge].
    + exists (digit_char n), acc. split; [reflexivity|]. split.
      * now apply digit_char_digit.
      * rewrite digit_char_code by assumption. lia.
    + apply IH.
      * apply N.div_str_pos. lia.
      * rewrite Nat2N.inj_succ, N.pow_succ_r' in Hn.
        apply N.Div0.div_lt_upper_bound. lia.
Qed.

(** The numeral of a natural starts with the digit zero only when it is
    the numeral of zero. *)
Lemma digits_of_N_head (n : N) :
  exists c r, digits_of_N n = c :: r /\ is_digit c = true
              /\ (code c = 48%N -> r = [] /\ n = 0%N)
              /\ (n = 0%N -> code c = 48%N).
Proof.
  destruct (N.eq_dec n 0) as [->|Hn].
  - exists (digit_char 0), []. repeat split; reflexivity.
  - destruct (digits_aux_head (S (N.to_nat (N.log2 n))) n []) as (c & r & E & D & Z).
    + lia.
    + apply digits_fuel.
    + exists c, r. repeat split; try assumption; intros; contradiction.
Qed.

Lemma pow10_pos (k : N) : (0 < 10 ^ k)%N.
Proof. apply N.neq_0_lt_0, N.pow_nonzero. discriminate. Qed.

Lemma val_digits_fixed (k : nat) : forall a n,
  val_digits a (digits_fixed k n) = (a * 10 ^ N.of_nat k + n mod 10 ^ N.of_nat k)%N.
Proof.
  induction k as [|k IH]; intros a n.
  - cbn [digits_fixed val_digits N.of_nat]. rewrite N.pow_0_r, N.mod_1_r. lia.
  - cbn [digits_fixed val_digits]. rewrite IH.
    rewrite digit_val_char by apply mod10_lt.
    rewrite Nat2N.inj_succ, N.pow_succ_r'.
    rewrite (N.mul_comm 10 (10 ^ N.of_nat k)).
    rewrite (N.Div0.mod_mul_r n (10 ^ N.of_nat k) 10). lia.
Qed.

Lemma digits_fixed_all (k : nat) (n : N) :
  forallb is_digit (digits_fixed k n) = true.
Proof.
  induction k as [|k IH]; cbn [digits_fixed forallb]; [reflexivity|].
  rewrite digit_char_digit by apply mod10_lt. assumption.
Qed.

(** ** The codec reads back what it writes *)

Module JsonFacts.
Import Json.

Lemma stops_no_digit (l : list ascii) : stops l = true -> no_digit l = true.
Proof.
  destruct l as [|c l]; simpl; [reflexivity|].
  intros H. repeat (apply andb_true_iff in H; destruct H as [H ?]). assumption.
Qed.

Lemma span_digits (ds rest : list ascii) :
  forallb is_digit ds = true -> no_digit rest = true ->
  span is_digit (ds ++ rest) = (ds, rest).
Proof.
  intros Hds Hrest. induction ds as [|c ds IH]; simpl.
  - destruct rest as [|c r]; [reflexivity|]. simpl in *.
    apply negb_true_iff in Hrest. now rewrite Hrest.
  - simpl in Hds. apply andb_true_iff in Hds. destruct Hds as [Hc Hds].
    rewrite Hc, (IH Hds). reflexivity.
Qed.

Lemma scan_frac_none (l : list ascii) : stops l = true -> scan_frac l = ([], l).
Proof.
  destruct l as [|c l]; simpl; [reflexivity|]. intros H.
  repeat (apply andb_true_iff in H; destruct H as [H ?]).
  match goal with P : negb (code c =? 46)%N = true |- _ =>
    apply negb_true_iff in P; rewrite P end.
  reflexivity.
Qed.

Lemma scan_exp_none (l : list ascii) : stops l = true -> scan_exp l = (None, l).
Proof.
  destruct l as [|c l]; simpl; [reflexivity|]. intros H.
  repeat (apply andb_true_iff in H; destruct H as [H ?]).
  repeat match goal with P : negb _ = true |- _ => apply negb_true_iff in P end.
  match goal with
    P : (code c =? 101)%N = false, Q : (code c =? 69)%N = false |- _ =>
      rewrite P, Q end.
  reflexivity.
Qed.

Lemma signed_abs (m : Z) : signed (m <? 0)%Z (Z.abs_N m) = m.
Proof.
  unfold signed. destruct (Z.ltb_spec m 0); rewrite N2Z.inj_abs_N; lia.
Qed.

Lemma scan_unsigned_int (neg : bool) (n : N) (rest : list ascii) :
  stops rest = true ->
  scan_unsigned neg (digits_of_N n ++ rest) = Some (VInt (signed neg n), rest).
Proof.
  intros Hrest.
  pose proof (digits_of_N_val n) as Hval.
  pose proof (digits_of_N_all n) as Hall.
  destruct (digits_of_N_head n) as (c & r & E & D & Z0 & _).
  rewrite E in *. simpl app. unfold scan_unsigned. rewrite D. simpl negb. cbv iota.
  destruct (N.eqb_spec (code c) 48) as [Hz|Hnz].
  - destruct (Z0 Hz) as [-> ->]. simpl app.
    rewrite (scan_frac_none _ Hrest), (scan_exp_none _ Hrest).
    rewrite Hval. reflexivity.
  - change (c :: r ++ rest) with ((c :: r) ++ rest).
    rewrite (span_digits _ _ Hall (stops_no_digit _ Hrest)).
    rewrite (scan_frac_none _ Hrest), (scan_exp_none _ Hrest).
    rewrite Hval. reflexivity.
Qed.

Lemma scan_frac_six (b : N) (rest : list ascii) :
  stops rest = true ->
  scan_frac (chr 46 :: digits_fixed 6 b ++ rest) = (digits_fixed 6 b, rest).
Proof.
  intros Hrest. unfold scan_frac.
  change (code (chr 46) =? 46)%N with true. cbv iota.
  rewrite (span_digits _ _ (digits_fixed_all 6 b) (stops_no_digit _ Hrest)).
  reflexivity.
Qed.

Lemma digits_fixed_length (k : nat) (n : N) : List.length (digits_fixed k n) = k.
Proof. induction k; cbn [digits_fixed List.length]; auto. Qed.

Lemma scan_unsigned_float (neg : bool) (a : N) (rest : list ascii) :
  stops rest = true ->
  scan_unsigned neg
    (digits_of_N (a / 1000000) ++ chr 46 :: digits_fixed 6 (a mod 1000000) ++ rest)
  = Some (VFloat (signed neg a), rest).
Proof.
  intros Hrest.
  set (q := (a / 1000000)%N). set (b := (a mod 1000000)%N).
  assert (Hdot : no_digit (chr 46 :: digits_fixed 6 b ++ rest) = true) by reflexivity.
  pose proof (digits_of_N_val q) as Hval.
  pose proof (digits_of_N_all q) as Hall.
  assert (Hres : forall ip,
    val_digits 0 ip = q ->
    (let (frac, l3) := scan_frac (chr 46 :: digits_fixed 6 b ++ rest) in
     let (ex, l4) := scan_exp l3 in
     match frac, ex with
     | [], None => Some (VInt (signed neg (val_digits 0 ip)), l4)
     | _, _ =>
         let m := val_digits (val_digits 0 ip) frac in
         let e := match ex with Some e => e | None => 0%Z end in
         Some (VFloat (signed neg (scale_float m (List.length frac) e)), l4)
     end) = Some (VFloat (signed neg a), rest)).
  { intros ip Hip. rewrite (scan_frac_six _ _ Hrest), (scan_exp_none _ Hrest).
    assert (Hm : scale_float (val_digits (val_digits 0 ip) (digits_fixed 6 b))
                   (List.length (digits_fixed 6 b)) 0 = a).
    { rewrite digits_fixed_length, Hip, val_digits_fixed.
      unfold scale_float. simpl Z.leb. cbv iota.
      change (Z.to_N (6 + 0 - Z.of_nat 6)) with 0%N.
      change (10 ^ N.of_nat 6)%N with 1000000%N.
      rewrite N.pow_0_r, N.mul_1_r.
      subst q b. rewrite N.Div0.mod_mod.
      change (0 <=? 0)%Z with true. cbv iota.
      pose proof (N.div_mod a 1000000). lia. }
    remember (digits_fixed 6 b) as fr eqn:Efr.
    destruct fr as [|d fr]; [discriminate Efr|].
    cbv zeta. rewrite Hm. reflexivity. }
  destruct (digits_of_N_head q) as (c & r & E & D & Z0 & _).
  rewrite E in *. rewrite <- app_comm_cons.
  unfold scan_unsigned. rewrite D. cbn [negb]. cbv iota.
  destruct (N.eqb_spec (code c) 48) as [Hz|Hnz].
  - destruct (Z0 Hz) as [-> Hq]. rewrite app_nil_l. apply Hres. assumption.
  - rewrite app_comm_cons.
    rewrite (span_digits _ _ Hall Hdot). apply Hres. assumption.
Qed.

Lemma scan_number_int (z : Z) (rest : list ascii) :
  stops rest = true ->
  scan_number (digits_of_Z z ++ rest) = Some (VInt z, rest).
Proof.
  intros Hrest. unfold digits_of_Z.
  pose proof (signed_abs z) as Hz.
  pose proof (scan_unsigned_int (z <? 0)%Z (Z.abs_N z) rest Hrest) as H.
  rewrite Hz in H. clear Hz.
  destruct (z <? 0)%Z.
  - rewrite <- app_comm_cons. unfold scan_number.
    change (code minus_sign =? 45)%N with true. cbv iota. exact H.
  - destruct (digits_of_N_head (Z.abs_N z)) as (c & r & E & D & _).
    rewrite E in *. rewrite <- app_comm_cons in *. unfold scan_number.
    destruct (N.eqb_spec (code c) 45) as [Hc|Hc]; [|exact H].
    unfold is_digit, between in D. rewrite Hc in D. discriminate D.
Qed.

Lemma scan_number_float (m : Z) (rest : list ascii) :
  stops rest = true ->
  scan_number (digits_of_float m ++ rest) = Some (VFloat m, rest).
Proof.
  intros Hrest. unfold digits_of_float. cbv zeta.
  pose proof (signed_abs m) as Hm.
  pose proof (scan_unsigned_float (m <? 0)%Z (Z.abs_N m) rest Hrest) as H.
  rewrite Hm in H. clear Hm.
  destruct (m <? 0)%Z.
  - rewrite <- !app_assoc, <- !app_comm_cons, !app_nil_l.
    unfold scan_number. change (code minus_sign =? 45)%N with true. cbv iota.
    exact H.
  - rewrite <- !app_assoc, !app_nil_l. rewrite <- app_comm_cons.
    destruct (digits_of_N_head (Z.abs_N m / 1000000)) as (c & r & E & D & _).
    rewrite E in *. rewrite <- app_comm_cons in *. unfold scan_number.
    destruct (N.eqb_spec (code c) 45) as [Hc|Hc]; [|exact H].
    unfold is_digit, between in D. rewrite Hc in D. discriminate D.
Qed.

(** *** String literals *)

Lemma scan_escape (c : ascii) (r : list ascii) :
  scan SNorm None (escape_char c ++ r) = emit [c] (scan SNorm None r).
Proof.
  destruct c as [[] [] [] [] [] [] [] []]; reflexivity.
Qed.

Lemma scan_escaped (cs rest : list ascii) :
  scan SNorm None (flat_map escape_char cs ++ dquote :: rest) = Some (cs, rest).
Proof.
  induction cs as [|c cs IH]; [reflexivity|].
  cbn [flat_map]. rewrite <- app_assoc, scan_escape, IH. reflexivity.
Qed.

Lemma scan_quote (s : string) (rest : list ascii) :
  exists r, quote s ++ rest = dquote :: r
            /\ scan SNorm None r = Some (chars s, rest).
Proof.
  exists (flat_map escape_char (chars s) ++ dquote :: rest). split.
  - unfold quote. rewrite <- app_comm_cons, <- app_assoc. reflexivity.
  - apply scan_escaped.
Qed.

(** *** Layout *)

Lemma skip_ws_indent (lvl : nat) (l : list ascii) :
  skip_ws (indent lvl ++ l) = skip_ws l.
Proof.
  unfold indent. rewrite <- app_comm_cons. cbn [skip_ws drop_while].
  change (is_ws newline) with true. cbv iota.
  induction (2 * lvl)%nat as [|n IH]; [reflexivity|].
  cbn [repeat app drop_while]. change (is_ws (chr 32)) with true. exact IH.
Qed.

Lemma opens_digit (c : ascii) (r : list ascii) :
  is_digit c = true -> opens (c :: r) = true.
Proof.
  destruct c as [[] [] [] [] [] [] [] []]; intros H;
    solve [reflexivity | discriminate H].
Qed.

Lemma opens_digits_of_N (n : N) (rest : list ascii) :
  opens (digits_of_N n ++ rest) = true.
Proof.
  destruct (digits_of_N_head n) as (c & r & E & D & _).
  rewrite E, <- app_comm_cons. now apply opens_digit.
Qed.

Lemma enc_opens (v : pyval) (lvl : nat) (rest : list ascii) :
  opens (enc lvl v ++ rest) = true.
Proof.
  destruct v as [| [] | n | m | s | [|x l] | [|[k x] d]]; try reflexivity.
  - cbn [enc]. unfold digits_of_Z. destruct (n <? 0)%Z; [reflexivity|].
    apply opens_digits_of_N.
  - cbn [enc]. unfold digits_of_float. cbv zeta.
    destruct (m <? 0)%Z; [reflexivity|].
    rewrite app_nil_l, <- app_assoc. apply opens_digits_of_N.
Qed.

Lemma skip_ws_opens (l : list ascii) : opens l = true -> skip_ws l = l.
Proof.
  destruct l as [|c l]; [discriminate|]. cbn [opens skip_ws drop_while].
  destruct (is_ws c); [discriminate|reflexivity].
Qed.

(** After a bracket or a brace that opens a container which is not
    empty, the decoder goes on to the first item. *)
Lemma opens_head (l : list ascii) :
  opens l = true ->
  exists c r, l = c :: r /\ (code c =? 93)%N = false /\ (code c =? 125)%N = false.
Proof.
  destruct l as [|c l]; [discriminate|]. cbn [opens]. intros H.
  apply andb_true_iff in H. destruct H as [H H2].
  apply andb_true_iff in H. destruct H as [_ H1].
  exists c, l. repeat split; now apply negb_true_iff.
Qed.

Lemma enc_list (lvl : nat) (x : pyval) (l : list pyval) :
  enc lvl (VList (x :: l))
  = chr 91 :: indent (S lvl) ++ enc (S lvl) x ++ enc_items (S lvl) l
      ++ indent lvl ++ [chr 93].
Proof.
  cbn [enc]. do 3 f_equal. f_equal.
  induction l as [|y l IH]; [reflexivity|].
  cbn [enc_items flat_map]. rewrite <- app_comm_cons, <- app_assoc.
  now rewrite IH.
Qed.

Lemma enc_dict (lvl : nat) (k : string) (x : pyval) (d : pydict) :
  enc lvl (VDict ((k, x) :: d))
  = chr 123 :: indent (S lvl) ++ enc_member (S lvl) (k, x) ++ enc_members (S lvl) d
      ++ indent lvl ++ [chr 125].
Proof.
  cbn [enc]. unfold enc_member. cbn [fst snd].
  rewrite <- !app_assoc, <- !app_comm_cons. do 3 f_equal. do 4 f_equal.
  induction d as [|[k' y] d IH]; [reflexivity|].
  rewrite IH. unfold enc_members, enc_member. cbn [flat_map fst snd].
  repeat (rewrite <- app_comm_cons || rewrite <- app_assoc). reflexivity.
Qed.

Lemma wf_list_cons (x : pyval) (l : list pyval) :
  wf (VList (x :: l)) = wf x && wf (VList l).
Proof. reflexivity. Qed.

Lemma wf_dict_cons (k : string) (x : pyval) (d : pydict) :
  wf (VDict ((k, x) :: d)) = true ->
  wf x = true /\ wf (VDict d) = true.
Proof.
  cbn [wf keys map fst unique]. intros H.
  apply andb_true_iff in H. destruct H as [H1 H2].
  apply andb_true_iff in H1. destruct H1 as [_ H1].
  apply andb_true_iff in H2. destruct H2 as [H2 H3].
  split; [assumption|]. cbn [wf]. unfold keys. now rewrite H1, H3.
Qed.

Lemma wf_dict_unique (d : pydict) : wf (VDict d) = true -> unique (keys d) = true.
Proof. cbn [wf]. intros H. apply andb_true_iff in H. apply H. Qed.

Lemma weight_list_cons (x : pyval) (l : list pyval) :
  weight (VList (x :: l)) = S (weight x + weight (VList l)).
Proof. cbn [weight]. lia. Qed.

Lemma weight_dict_cons (k : string) (x : pyval) (d : pydict) :
  weight (VDict ((k, x) :: d)) = S (weight x + weight (VDict d)).
Proof. cbn [weight]. lia. Qed.

Lemma unique_app_fresh (l1 l2 : list string) (k : string) :
  unique (l1 ++ k :: l2) = true -> existsb (String.eqb k) l1 = false.
Proof.
  induction l1 as [|a l1 IH]; [reflexivity|].
  cbn [app unique existsb]. intros H.
  apply andb_true_iff in H. destruct H as [Ha H].
  rewrite (IH H), orb_false_r.
  apply negb_true_iff in Ha. rewrite existsb_app in Ha.
  apply orb_false_iff in Ha. destruct Ha as [_ Ha]. cbn [existsb] in Ha.
  apply orb_false_iff in Ha. destruct Ha as [Ha _].
  now rewrite String.eqb_sym.
Qed.

Lemma dict_set_fresh (d : pydict) (k : string) (x : pyval) :
  existsb (String.eqb k) (keys d) = false -> dict_set d k x = d ++ [(k, x)].
Proof.
  induction d as [|[k' y] d IH]; [reflexivity|].
  cbn [keys map fst existsb dict_set app]. intros H.
  apply orb_false_iff in H. destruct H as [Hk H].
  rewrite String.eqb_sym, Hk. now rewrite (IH H).
Qed.

Lemma parse_value_number (f : nat) (c : ascii) (r : list ascii) :
  num_start c = true -> parse_value (S f) (c :: r) = scan_number (c :: r).
Proof.
  destruct c as [[] [] [] [] [] [] [] []]; intros H;
    solve [reflexivity | discriminate H].
Qed.

Lemma digits_of_Z_start (z : Z) :
  exists c r, digits_of_Z z = c :: r /\ num_start c = true.
Proof.
  unfold digits_of_Z. destruct (z <? 0)%Z.
  - eexists _, _. split; reflexivity.
  - destruct (digits_of_N_head (Z.abs_N z)) as (c & r & E & D & _).
    exists c, r. split; [assumption|]. unfold num_start. now rewrite D.
Qed.

Lemma digits_of_float_start (m : Z) :
  exists c r, digits_of_float m = c :: r /\ num_start c = true.
Proof.
  unfold digits_of_float. cbv zeta. destruct (m <? 0)%Z.
  - eexists _, _. split; reflexivity.
  - destruct (digits_of_N_head (Z.abs_N m / 1000000)) as (c & r & E & D & _).
    rewrite app_nil_l, E, <- app_comm_cons.
    eexists _, _. split; [reflexivity|]. unfold num_start. now rewrite D.
Qed.

Lemma stops_indent (lvl : nat) (l : list ascii) : stops (indent lvl ++ l) = true.
Proof. reflexivity. Qed.

Ltac norm_app :=
  repeat (rewrite <- app_comm_cons || rewrite <- app_assoc || rewrite app_nil_l).
Ltac norm_app_in H :=
  repeat (rewrite <- app_comm_cons in H || rewrite <- app_assoc in H
          || rewrite app_nil_l in H).

Lemma skip_ws_cons_stop (c : ascii) (l : list ascii) :
  is_ws c = false -> skip_ws (c :: l) = c :: l.
Proof. intros H. cbn [skip_ws drop_while]. now rewrite H. Qed.

Lemma skip_ws_space (l : list ascii) : skip_ws (chr 32 :: l) = skip_ws l.
Proof. reflexivity. Qed.

Lemma parse_items_enc (l : list pyval) : forall x acc lvl lvl' rest f,
  Forall reads_back (x :: l) ->
  wf (VList (x :: l)) = true ->
  (weight (VList (x :: l)) <= S f)%nat ->
  parse_items f
    (enc lvl x ++ enc_items lvl l ++ indent lvl' ++ chr 93 :: rest) acc
  = Some (VList (acc ++ x :: l), rest).
Proof.
  induction l as [|y l IH]; intros x acc lvl lvl' rest f HP Hwf Hw.
  - inversion HP as [|? ? Hx _]; subst.
    rewrite wf_list_cons in Hwf. apply andb_true_iff in Hwf. destruct Hwf as [Hwx _].
    rewrite weight_list_cons in Hw. cbn [weight] in Hw.
    destruct f as [|f]; [lia|]. cbn [parse_items enc_items flat_map app].
    rewrite (Hx Hwx lvl _ f) by (lia || apply stops_indent).
    rewrite skip_ws_indent. reflexivity.
  - inversion HP as [|? ? Hx HP']; subst.
    rewrite wf_list_cons in Hwf. apply andb_true_iff in Hwf. destruct Hwf as [Hwx Hwl].
    rewrite weight_list_cons in Hw.
    assert (1 <= weight (VList (y :: l)))%nat by (rewrite weight_list_cons; lia).
    destruct f as [|f]; [lia|]. cbn [parse_items enc_items flat_map].
    norm_app.
    rewrite (Hx Hwx lvl _ f) by (lia || reflexivity).
    rewrite (skip_ws_cons_stop (chr 44)) by reflexivity. cbv beta iota.
    change (code (chr 44) =? 44)%N with true. cbv iota.
    norm_app. rewrite skip_ws_indent.
    rewrite skip_ws_opens by apply enc_opens.
    fold (enc_items lvl l).
    rewrite (IH y (acc ++ [x]) lvl lvl' rest f HP' Hwl) by lia.
    now rewrite <- app_assoc.
Qed.

Lemma parse_members_enc (d : pydict) : forall k x acc lvl lvl' rest f,
  Forall (fun kv => reads_back (snd kv)) ((k, x) :: d) ->
  wf (VDict ((k, x) :: d)) = true ->
  unique (keys (acc ++ (k, x) :: d)) = true ->
  (weight (VDict ((k, x) :: d)) <= S f)%nat ->
  parse_members f
    (enc_member lvl (k, x) ++ enc_members lvl d ++ indent lvl' ++ chr 125 :: rest) acc
  = Some (VDict (acc ++ (k, x) :: d), rest).
Proof.
  induction d as [|[k' y] d IH]; intros k x acc lvl lvl' rest f HP Hwf Hu Hw.
  - inversion HP as [|? ? Hx _]; subst. cbn [snd] in Hx.
    destruct (wf_dict_cons _ _ _ Hwf) as [Hwx _].
    rewrite weight_dict_cons in Hw. cbn [weight] in Hw.
    destruct f as [|f]; [lia|].
    unfold enc_member. cbn [fst snd enc_members flat_map app].
    norm_app.
    destruct (scan_quote k (chr 58 :: chr 32 :: enc lvl x ++ indent lvl' ++ chr 125 :: rest))
      as (r0 & E0 & S0).
    norm_app. rewrite E0.
    cbn [parse_members]. change (code dquote =? 34)%N with true. cbn [negb]. cbv iota.
    rewrite S0. rewrite (skip_ws_cons_stop (chr 58)) by reflexivity. cbv beta iota.
    change (code (chr 58) =? 58)%N with true. cbn [negb]. cbv iota.
    rewrite skip_ws_space.
    rewrite skip_ws_opens by apply enc_opens.
    rewrite (Hx Hwx lvl _ f) by (lia || apply stops_indent).
    rewrite skip_ws_indent, (skip_ws_cons_stop (chr 125)) by reflexivity.
    cbv beta iota.
    change (code (chr 125) =? 44)%N with false.
    change (code (chr 125) =? 125)%N with true. cbv iota.
    rewrite text_chars, dict_set_fresh; [reflexivity|].
    unfold keys in *. rewrite map_app in Hu. cbn [map fst] in Hu.
    now apply unique_app_fresh in Hu.
  - inversion HP as [|? ? Hx HP']; subst. cbn [snd] in Hx.
    destruct (wf_dict_cons _ _ _ Hwf) as [Hwx Hwd].
    rewrite weight_dict_cons in Hw.
    assert (1 <= weight (VDict ((k', y) :: d)))%nat by (rewrite weight_dict_cons; lia).
    destruct f as [|f]; [lia|].
    unfold enc_member at 1. cbn [fst snd enc_members flat_map].
    norm_app.
    destruct (scan_quote k
                (chr 58 :: chr 32 :: enc lvl x
                   ++ (chr 44 :: indent lvl ++ enc_member lvl (k', y))
                   ++ flat_map (fun kv => chr 44 :: indent lvl ++ enc_member lvl kv) d
                   ++ indent lvl' ++ chr 125 :: rest))
      as (r0 & E0 & S0).
    norm_app. norm_app_in E0. norm_app_in S0. rewrite E0.
    cbn [parse_members]. change (code dquote =? 34)%N with true. cbn [negb]. cbv iota.
    rewrite S0. rewrite (skip_ws_cons_stop (chr 58)) by reflexivity. cbv beta iota.
    change (code (chr 58) =? 58)%N with true. cbn [negb]. cbv iota.
    rewrite skip_ws_space.
    rewrite skip_ws_opens by apply enc_opens.
    rewrite (Hx Hwx lvl _ f) by (lia || reflexivity).
    rewrite (skip_ws_cons_stop (chr 44)) by reflexivity. cbv beta iota.
    change (code (chr 44) =? 44)%N with true. cbv iota.
    rewrite skip_ws_indent.
    rewrite skip_ws_opens.
    2:{ unfold enc_member, quote. cbn [fst]. rewrite <- !app_comm_cons. reflexivity. }
    fold (enc_members lvl d).
    assert (Hfresh : existsb (String.eqb k) (keys acc) = false).
    { unfold keys in *. rewrite map_app in Hu. cbn [map fst] in Hu.
      now apply unique_app_fresh in Hu. }
    rewrite text_chars, (dict_set_fresh _ _ _ Hfresh).
    rewrite (IH k' y (acc ++ [(k, x)]) lvl lvl' rest f HP' Hwd).
    + now rewrite <- app_assoc.
    + now rewrite <- app_assoc.
    + lia.
Qed.

Lemma parse_enc (v : pyval) : reads_back v.
Proof.
  induction v using pyval_induction; unfold reads_back; intros Hwf lvl rest fuel Hw Hrest.
  - destruct fuel as [|f]; [cbn in Hw; lia|]. reflexivity.
  - destruct fuel as [|f]; [cbn in Hw; lia|]. destruct b; reflexivity.
  - destruct fuel as [|f]; [cbn in Hw; lia|]. cbn [enc].
    destruct (digits_of_Z_start n) as (c & r & E & Hc).
    pose proof (scan_number_int n rest Hrest) as Hs.
    rewrite E in *. rewrite <- app_comm_cons in *.
    now rewrite parse_value_number.
  - destruct fuel as [|f]; [cbn in Hw; lia|]. cbn [enc].
    destruct (digits_of_float_start m) as (c & r & E & Hc).
    pose proof (scan_number_float m rest Hrest) as Hs.
    rewrite E in *. rewrite <- app_comm_cons in *.
    now rewrite parse_value_number.
  - destruct fuel as [|f]; [cbn in Hw; lia|]. cbn [enc].
    destruct (scan_quote s rest) as (r0 & E0 & S0). rewrite E0.
    cbn [parse_value]. change (code dquote =? 34)%N with true. cbv iota.
    rewrite S0. now rewrite text_chars.
  - destruct l as [|x l].
    + destruct fuel as [|f]; [cbn in Hw; lia|]. reflexivity.
    + destruct fuel as [|f]; [cbn in Hw; lia|].
      rewrite enc_list. norm_app. cbn [parse_value].
      change (code (chr 91) =? 34)%N with false.
      change (code (chr 91) =? 91)%N with true. cbv iota.
      rewrite skip_ws_indent, skip_ws_opens by apply enc_opens.
      destruct (opens_head _ (enc_opens x (S lvl)
        (enc_items (S lvl) l ++ indent lvl ++ chr 93 :: rest))) as (c & r & E & C1 & _).
      rewrite E, C1, <- E.
      now rewrite (parse_items_enc l x [] (S lvl) lvl rest f).
  - destruct d as [|[k x] d].
    + destruct fuel as [|f]; [cbn in Hw; lia|]. reflexivity.
    + destruct fuel as [|f]; [cbn in Hw; lia|].
      rewrite enc_dict. norm_app. cbn [parse_value].
      change (code (chr 123) =? 34)%N with false.
      change (code (chr 123) =? 91)%N with false.
      change (code (chr 123) =? 123)%N with true. cbv iota.
      assert (Ho : forall t, opens (enc_member (S lvl) (k, x) ++ t) = true).
      { intros t. unfold enc_member, quote. cbn [fst]. norm_app. reflexivity. }
      rewrite skip_ws_indent, skip_ws_opens by apply Ho.
      destruct (opens_head _ (Ho
        (enc_members (S lvl) d ++ indent lvl ++ chr 125 :: rest))) as (c & r & E & _ & C2).
      rewrite E, C2, <- E.
      rewrite (parse_members_enc d k x [] (S lvl) lvl rest f); auto.
      now apply wf_dict_unique.
Qed.

Lemma weight_le_length (v : pyval) :
  forall lvl, (weight v <= List.length (enc lvl v))%nat.
Proof.
  assert (Hpos : forall v lvl, (1 <= List.length (enc lvl v))%nat).
  { intros w lvl. pose proof (enc_opens w lvl []) as H. rewrite app_nil_r in H.
    destruct (enc lvl w); [discriminate H | cbn [List.length]; lia]. }
  induction v using pyval_induction; intros lvl; try apply Hpos.
  - destruct l as [|x l]; [cbn; lia|].
    rewrite enc_list. cbn [List.length]. rewrite !length_app. cbn [List.length].
    assert (Hl : forall l0, Forall (fun v => forall lvl,
                   (weight v <= List.length (enc lvl v))%nat) l0 ->
                 (weight (VList l0) <= S (List.length (enc_items (S lvl) l0)))%nat).
    { induction l0 as [|y l0 IH]; intros HF; [cbn; lia|].
      inversion HF as [|? ? Hy HF']; subst.
      rewrite weight_list_cons. cbn [enc_items flat_map].
      rewrite <- app_comm_cons. cbn [List.length]. rewrite !length_app.
      fold (enc_items (S lvl) l0). specialize (IH HF'). specialize (Hy (S lvl)). lia. }
    inversion H as [|? ? Hx HF]; subst.
    rewrite weight_list_cons. specialize (Hl l HF). specialize (Hx (S lvl)). lia.
  - destruct d as [|[k x] d]; [cbn; lia|].
    rewrite enc_dict. cbn [List.length]. rewrite !length_app. cbn [List.length].
    assert (Hm : forall kv t, (List.length (enc (S lvl) (snd kv))
                               <= List.length (enc_member (S lvl) kv ++ t))%nat).
    { intros kv t. unfold enc_member. rewrite !length_app. cbn [List.length]. lia. }
    assert (Hl : forall d0, Forall (fun kv => forall lvl,
                   (weight (snd kv) <= List.length (enc lvl (snd kv)))%nat) d0 ->
                 (weight (VDict d0) <= S (List.length (enc_members (S lvl) d0)))%nat).
    { induction d0 as [|[k' y] d0 IH]; intros HF; [cbn; lia|].
      inversion HF as [|? ? Hy HF']; subst. cbn [snd] in Hy.
      rewrite weight_dict_cons. cbn [enc_members flat_map].
      rewrite <- app_comm_cons. cbn [List.length]. rewrite !length_app.
      fold (enc_members (S lvl) d0). specialize (IH HF'). specialize (Hy (S lvl)).
      pose proof (Hm (k', y) []) as Hm'. rewrite app_nil_r in Hm'. cbn [snd] in Hm'.
      lia. }
    inversion H as [|? ? Hx HF]; subst. cbn [snd] in Hx.
    rewrite weight_dict_cons. specialize (Hl d HF). specialize (Hx (S lvl)).
    pose proof (Hm (k, x) []) as Hm'. rewrite app_nil_r in Hm'. cbn [snd] in Hm'.
    lia.
Qed.

(** What [json_dumps] writes, [json_loads] reads back as the same
    value. *)
Lemma json_roundtrip (v : pyval) :
  wf v = true -> json_loads (json_dumps v) = Some v.
Proof.
  intros Hwf. unfold json_loads, json_dumps. cbv zeta. rewrite chars_text.
  pose proof (enc_opens v 0 []) as Ho. rewrite app_nil_r in Ho.
  rewrite (skip_ws_opens _ Ho).
  pose proof (parse_enc v Hwf 0%nat [] (S (List.length (enc 0 v)))) as H.
  rewrite app_nil_r in H. rewrite H; [reflexivity| |reflexivity].
  pose proof (weight_le_length v 0). lia.
Qed.

End JsonFacts.

(** ** The prober *)

Ltac run := unfold bind, ret, lift, try_except, time_time, java_status, logger.

Lemma advances_refl (w : World) : advances w w.
Proof.
  repeat split; try reflexivity.
  exists []. now rewrite app_nil_r.
Qed.

Lemma advances_trans (w1 w2 w3 : World) :
  advances w1 w2 -> advances w2 w3 -> advances w1 w3.
Proof.
  intros (C1 & N1 & F1 & L1 & T1 & q1 & Q1) (C2 & N2 & F2 & L2 & T2 & q2 & Q2).
  repeat split; try congruence; try lia.
  exists (q1 ++ q2). rewrite Q2, Q1. now rewrite app_assoc.
Qed.

(** Whatever it is given, [ping_server] returns a dict: the result of the
    one query it made, or an offline result. It reads the clock once. *)
Lemma ping_server_result (address : pyval) (w : World) :
  exists info w',
    ping_server address w = (Ok (VDict info), w')
    /\ advances w w' /\ ticks w' = S (ticks w)
    /\ ((exists st a host port,
            info = online_info st (clock w (ticks w)) a
            /\ with_port address = Ok a
            /\ net w (List.length (queries w)) host port = Ok st
            /\ queries w' = queries w ++ [(host, port)])
        \/ (exists e a,
              info = offline_info e a (clock w (ticks w))
              /\ (with_port address = Ok a
                  \/ (a = address /\ exists e', with_port address = Raise e')))).
Proof.
  unfold ping_server. destruct (with_port address) as [a|e] eqn:Ea.
  - unfold ping_query.
    assert (Hoff : forall e0 w0, advances w w0 -> ticks w0 = ticks w ->
      exists info w',
        (now <- time_time;; ret (VDict (offline_info e0 a now))) w0
          = (Ok (VDict info), w')
        /\ advances w w' /\ ticks w' = S (ticks w)
        /\ ((exists st a0 host port,
               info = online_info st (clock w (ticks w)) a0
               /\ Ok a = Ok a0
               /\ net w (List.length (queries w)) host port = Ok st
               /\ queries w' = queries w ++ [(host, port)])
            \/ (exists e1 a0,
                  info = offline_info e1 a0 (clock w (ticks w))
                  /\ (Ok a = Ok a0
                      \/ (a0 = address /\ exists e', Ok a = Raise e'))))).
    { intros e0 w0 (C & N & F & L & T & qs & Q) Ht. run.
      eexists _, _. split; [reflexivity|]. split; [|split].
      - repeat split; cbn; try assumption; try lia. exists qs. assumption.
      - cbn. lia.
      - right. exists e0, a. cbn. rewrite C, Ht. auto. }
    destruct a as [| b | n | m | s | l | d];
      try (run; apply Hoff; [apply advances_refl | reflexivity]).
    destruct (split_colon (chars s)) as [host port]. run.
    destruct (py_int (text port)) as [p|e].
    + destruct (net w (List.length (queries w)) (text host) p) as [st|e] eqn:En.
      * eexists _, _. split; [reflexivity|]. split; [|split].
        -- repeat split; cbn; try lia. eexists. reflexivity.
        -- reflexivity.
        -- left. exists st, (VStr s), (text host), p. cbn. auto.
      * apply (Hoff e (set_queries (queries w ++ [(text host, p)]) w)).
        -- repeat split; cbn; try lia. eexists. reflexivity.
        -- reflexivity.
    + apply Hoff; [apply advances_refl | reflexivity].
  - run. eexists _, _. split; [reflexivity|]. split; [|split].
    + repeat split; cbn; try lia. exists []. now rewrite app_nil_r.
    + reflexivity.
    + right. exists e, address. split; [reflexivity|]. right. eauto.
Qed.

(** C5. For every address string, [ping_server] returns a result dict and
    raises nothing: either status "online" with the version, the player
    counts, the description, the latency, the time of the check and the
    address, or status "offline" with the error message, the address and
    the time of the check. *)
Theorem ping_server_never_raises (address : string) (w : World) :
  exists info w',
    ping_server (VStr address) w = (Ok (VDict info), w')
    /\ ((exists version online max description latency now a,
            info = [("status", VStr "online"); ("version", VStr version);
                    ("players_online", VInt online); ("players_max", VInt max);
                    ("description", VStr description); ("latency", VFloat latency);
                    ("last_checked", VFloat now); ("address", VStr a)])
        \/ (exists message now a,
              info = [("status", VStr "offline"); ("error", VStr message);
                      ("address", VStr a); ("last_checked", VFloat now)])).
Proof.
  destruct (ping_server_result (VStr address) w)
    as (info & w' & E & _ & _ & [(st & a & host & port & -> & Ha & _) | (e & a & -> & Ha)]).
  - exists (online_info st (clock w (ticks w)) a), w'. split; [exact E|]. left.
    cbn in Ha. injection Ha as <-. unfold online_info. repeat eexists.
  - exists (offline_info e a (clock w (ticks w))), w'. split; [exact E|]. right.
    unfold offline_info. destruct Ha as [Ha | [-> _]].
    + cbn in Ha. injection Ha as <-. repeat eexists.
    + repeat eexists.
Qed.

(** ** Dicts *)

Lemma dict_get_set (d : pydict) (k k' : string) (v : pyval) :
  dict_get (dict_set d k v) k' = if String.eqb k k' then Some v else dict_get d k'.
Proof.
  induction d as [|[k0 v0] d IH]; cbn [dict_set dict_get].
  - reflexivity.
  - destruct (String.eqb_spec k0 k) as [->|Hk]; cbn [dict_get].
    + destruct (String.eqb k k'); reflexivity.
    + destruct (String.eqb_spec k0 k') as [->|Hk'].
      * destruct (String.eqb_spec k k') as [->|_]; [contradiction|reflexivity].
      * exact IH.
Qed.

Lemma existsb_eqb_false (k : string) (l : list string) :
  existsb (String.eqb k) l = false <-> ~ In k l.
Proof.
  split.
  - intros H Hin. assert (existsb (String.eqb k) l = true); [|congruence].
    apply existsb_exists. exists k. split; [assumption|apply String.eqb_refl].
  - intros H. destruct (existsb (String.eqb k) l) eqn:E; [|reflexivity].
    apply existsb_exists in E. destruct E as (x & Hx & Ex).
    apply String.eqb_eq in Ex. subst. contradiction.
Qed.

(** Keys that [other] does not hold are left as they were. *)
Lemma dict_get_update_other (other d : pydict) (k : string) :
  ~ In k (keys other) -> dict_get (dict_update d other) k = dict_get d k.
Proof.
  unfold dict_update. revert d.
  induction other as [|[k0 v0] other IH]; intros d Hk; cbn [fold_left fst snd].
  - reflexivity.
  - cbn [keys map fst] in Hk. rewrite IH by (intros H; apply Hk; now right).
    rewrite dict_get_set. destruct (String.eqb_spec k0 k) as [->|_]; [|reflexivity].
    exfalso. apply Hk. now left.
Qed.

(** Keys that [other] holds take its value. *)
Lemma dict_get_update_in (other d : pydict) (k : string) (v : pyval) :
  unique (keys other) = true -> dict_get other k = Some v ->
  dict_get (dict_update d other) k = Some v.
Proof.
  unfold dict_update. revert d.
  induction other as [|[k0 v0] other IH]; intros d Hu Hg; [discriminate Hg|].
  cbn [keys map fst unique] in Hu. apply andb_true_iff in Hu. destruct Hu as [Hf Hu].
  cbn [fold_left fst snd]. cbn [dict_get] in Hg.
  destruct (String.eqb_spec k0 k) as [->|Hk].
  - injection Hg as ->. apply negb_true_iff, existsb_eqb_false in Hf.
    change (dict_get (dict_update (dict_set d k v) other) k = Some v).
    rewrite (dict_get_update_other _ _ _ Hf), dict_get_set.
    now rewrite String.eqb_refl.
  - now apply IH.
Qed.

(** ** The refresher, one entry at a time *)

Lemma load_stored (w : World) : load_servers w = (Ok (stored w), w).
Proof.
  unfold load_servers, stored. destruct (fs w) as [c|]; [|reflexivity].
  destruct (Json.json_loads c); reflexivity.
Qed.

Lemma added_micros_dict (server : pyval) (m : Z) :
  added_micros server = Some m ->
  exists d a, server = VDict d
              /\ py_get server "added_time" (VInt 0) = Ok a /\ micros_of a = Some m.
Proof.
  unfold added_micros. destruct server; cbn; try discriminate.
  destruct (dict_get entries "added_time") as [a|]; intros H; eauto.
Qed.

(** An entry within the grace period is appended as it is; the clock was
    read, nothing else happened. *)
Lemma check_server_fresh (server : pyval) (updated : list pyval) (w : World) (m : Z) :
  added_micros server = Some m ->
  (clock w (ticks w) - m <= grace)%Z ->
  check_server server updated w
  = (Ok (updated ++ [server]), set_ticks (S (ticks w)) w).
Proof.
  intros Ha Hage. destruct (added_micros_dict _ _ Ha) as (d & a & -> & Eg & Em).
  unfold check_server. run. rewrite Eg. unfold float_minus. rewrite Em.
  destruct (Z.ltb_spec grace (clock w (ticks w) - m)); [lia|reflexivity].
Qed.

(** An entry past the grace period is probed; it is appended, updated
    with the result, when the result says online, and left out
    otherwise. *)
Lemma check_server_old (server : pyval) (updated : list pyval) (w : World) (m : Z)
      (address : pyval) (info : pydict) (w' : World) :
  added_micros server = Some m ->
  (grace < clock w (ticks w) - m)%Z ->
  py_getitem server "address" = Ok address ->
  ping_server address (set_ticks (S (ticks w)) w) = (Ok (VDict info), w') ->
  exists d, server = VDict d /\
    ((dict_get info "status" = Some (VStr "online") ->
      check_server server updated w
      = (Ok (updated ++ [VDict (dict_update d info)]), w'))
     /\ (dict_get info "status" = Some (VStr "offline") ->
         check_server server updated w = (Ok updated, w'))).
Proof.
  intros Ha Hage Haddr Hping.
  destruct (added_micros_dict _ _ Ha) as (d & a & -> & Eg & Em).
  exists d. split; [reflexivity|].
  unfold check_server. run. rewrite Eg. unfold float_minus. rewrite Em.
  destruct (Z.ltb_spec grace (clock w (ticks w) - m)); [|lia].
  rewrite Haddr.
  change (set_ticks (S (ticks w)) w) with
    (mkWorld (fs w) (clock w) (S (ticks w)) (net w) (queries w) (log w)) in Hping.
  unfold set_ticks. rewrite Hping. cbn [py_getitem].
  split; intros Hs; rewrite Hs; reflexivity.
Qed.

Lemma check_server_acc (server : pyval) (updated : list pyval) (w : World) :
  check_server server updated w
  = match check_server server [] w with
    | (Ok out, w') => (Ok (updated ++ out), w')
    | (Raise e, w') => (Raise e, w')
    end.
Proof.
  unfold check_server. run.
  destruct (py_get server "added_time" (VInt 0)) as [a|]; [|reflexivity].
  destruct (float_minus (clock w (ticks w)) a) as [age|]; [|reflexivity].
  destruct (grace <? age)%Z; [|reflexivity].
  destruct (py_getitem server "address") as [address|]; [|reflexivity].
  destruct (ping_server address _) as [[status|] w1]; [|reflexivity].
  destruct (py_getitem status "status") as [st|]; [|reflexivity].
  destruct (py_eqb st (VStr "online")).
  - destruct (py_update server status); reflexivity.
  - now rewrite app_nil_r.
Qed.

Lemma check_loop_acc (servers : list pyval) : forall updated w,
  check_loop servers updated w
  = match check_loop servers [] w with
    | (Ok out, w') => (Ok (updated ++ out), w')
    | (Raise e, w') => (Raise e, w')
    end.
Proof.
  induction servers as [|s servers IH]; intros updated w; cbn [check_loop].
  - run. now rewrite app_nil_r.
  - unfold bind. rewrite check_server_acc.
    destruct (check_server s [] w) as [[out|e] w1]; [|reflexivity].
    rewrite IH, (IH out).
    destruct (check_loop servers [] w1) as [[out'|e] w2]; [|reflexivity].
    now rewrite app_assoc.
Qed.

Lemma check_loop_app (l1 l2 : list pyval) : forall updated w,
  check_loop (l1 ++ l2) updated w
  = match check_loop l1 updated w with
    | (Ok out, w') => check_loop l2 out w'
    | (Raise e, w') => (Raise e, w')
    end.
Proof.
  induction l1 as [|s l1 IH]; intros updated w; cbn [check_loop app].
  - reflexivity.
  - unfold bind. destruct (check_server s updated w) as [[out|e] w1]; [|reflexivity].
    apply IH.
Qed.

(** When the loop goes through, the cycle saves its list. *)
Lemma cycle_saves (w : World) (servers out : list pyval) (w1 : World) :
  stored w = VList servers ->
  check_loop servers [] w = (Ok out, w1) ->
  exists w',
    server_checker_cycle w = (Ok tt, w')
    /\ fs w' = Some (Json.json_dumps (VList out))
    /\ clock w' = clock w1 /\ ticks w' = ticks w1 /\ queries w' = queries w1.
Proof.
  intros Hs Hl. unfold server_checker_cycle, check_all, try_except, bind.
  rewrite load_stored, Hs. cbn [lift py_iter]. rewrite Hl.
  unfold save_servers, logger. eexists. split; [reflexivity|]. repeat split.
Qed.

(** ** The refresher, a whole cycle *)

Lemma kept_in_grace_mono (w w1 w' : World) (s : pyval) (l : list pyval) (e : pyval) :
  clock w1 = clock w -> (ticks w <= ticks w1)%nat ->
  kept_in_grace w1 w' l e -> kept_in_grace w w' (s :: l) e.
Proof.
  intros C T (Hin & k & m & Hk & Ha & Hage). split; [now right|].
  exists k, m. rewrite C in Hage. repeat split; try assumption; lia.
Qed.

Lemma kept_online_mono (w w1 w' : World) (s : pyval) (l : list pyval) (e : pyval) :
  clock w1 = clock w -> (ticks w <= ticks w1)%nat ->
  kept_online w1 w' l e -> kept_online w w' (s :: l) e.
Proof.
  intros C T (d & address & st & a & k & Hin & Hk & Hd & Hp & He).
  exists d, address, st, a, k. rewrite C in He.
  repeat split; try assumption; try lia. now right.
Qed.

Lemma entry_ok_parts (server : pyval) :
  entry_ok server = true ->
  exists d address m,
    server = VDict d /\ py_getitem server "address" = Ok address
    /\ added_micros server = Some m.
Proof.
  unfold entry_ok. destruct server as [| | | | | |d]; try discriminate.
  cbn [py_getitem]. destruct (dict_get d "address") as [address|]; [|discriminate].
  destruct (added_micros (VDict d)) as [m|]; [|discriminate].
  intros _. exists d, address, m. auto.
Qed.

(** What one entry fit for the refresher becomes. *)
Lemma check_server_spec (server : pyval) (w : World) :
  entry_ok server = true ->
  exists out w',
    check_server server [] w = (Ok out, w')
    /\ advances w w' /\ (ticks w < ticks w')%nat
    /\ Forall (fun e => kept_in_grace w w' [server] e \/ kept_online w w' [server] e) out.
Proof.
  intros Hok. destruct (entry_ok_parts _ Hok) as (d & address & m & -> & Haddr & Ha).
  destruct (Z.ltb_spec grace (clock w (ticks w) - m)) as [Hold|Hfresh].
  - destruct (ping_server_result address (set_ticks (S (ticks w)) w))
      as (info & w' & Ep & Hadv & Ht & Hcases).
    destruct (check_server_old _ [] w m address info w' Ha Hold Haddr Ep)
      as (d' & Ed & Hon & Hoff).
    injection Ed as <-.
    assert (Hadv' : advances w w').
    { apply (advances_trans _ (set_ticks (S (ticks w)) w)); [|assumption].
      repeat split; cbn; try lia. exists []. now rewrite app_nil_r. }
    cbn in Ht.
    assert (Hd : dict_get d "address" = Some address).
    { cbn [py_getitem] in Haddr. destruct (dict_get d "address"); congruence. }
    destruct Hcases as [(st & a & host & port & -> & Hp & _) | (e & a & -> & _)].
    + eexists _, w'. split; [apply Hon; reflexivity|]. split; [assumption|].
      split; [lia|]. cbn [app]. constructor; [|constructor]. right.
      exists d, address, st, a, (S (ticks w)). split; [now left|].
      split; [lia|]. repeat split; assumption.
    + exists [], w'. split; [apply Hoff; reflexivity|]. split; [assumption|].
      split; [lia|]. constructor.
  - exists [VDict d], (set_ticks (S (ticks w)) w).
    split; [now apply (check_server_fresh _ [] w m)|]. split; [|split].
    + repeat split; cbn; try lia. exists []. now rewrite app_nil_r.
    + cbn. lia.
    + constructor; [|constructor]. left. split; [now left|].
      exists (ticks w), m. cbn. repeat split; try assumption; lia.
Qed.

(** What a list of such entries becomes: every entry of the new list was
    kept within the grace period or probed and found online. *)
Lemma check_loop_spec (servers : list pyval) : forall w,
  forallb entry_ok servers = true ->
  exists out w',
    check_loop servers [] w = (Ok out, w')
    /\ advances w w'
    /\ Forall (fun e => kept_in_grace w w' servers e \/ kept_online w w' servers e) out.
Proof.
  induction servers as [|s servers IH]; intros w Hok.
  - exists [], w. split; [reflexivity|]. split; [apply advances_refl|constructor].
  - cbn [forallb] in Hok. apply andb_true_iff in Hok. destruct Hok as [Hs Hok].
    destruct (check_server_spec s w Hs) as (o1 & w1 & E1 & A1 & T1 & F1).
    destruct (IH w1 Hok) as (o2 & w2 & E2 & A2 & F2).
    exists (o1 ++ o2), w2. cbn [check_loop]. unfold bind. rewrite E1.
    rewrite check_loop_acc, E2. split; [reflexivity|].
    split; [now apply (advances_trans _ w1)|].
    destruct A1 as (C1 & _ & _ & _ & T1' & _).
    destruct A2 as (C2 & _ & _ & _ & T2' & _).
    apply Forall_app. split.
    + eapply Forall_impl; [|exact F1]. cbv beta.
      intros e [(Hin & k & m & Hk & Ha & Hage)
               | (d & address & st & a & k & Hin & Hk & Hd & Hp & He)].
      * left. split; [destruct Hin as [<-|[]]; now left|].
        exists k, m. repeat split; try assumption; lia.
      * right. exists d, address, st, a, k.
        split; [destruct Hin as [<-|[]]; now left|].
        split; [lia|]. repeat split; assumption.
    + eapply Forall_impl; [|exact F2]. cbv beta. intros e [H|H].
      * left. apply (kept_in_grace_mono w w1); auto; lia.
      * right. apply (kept_online_mono w w1); auto; lia.
Qed.

(** The fields of a result that says online. *)
Lemma online_info_fields (st : reply) (now : Z) (a : pyval) (d : pydict) :
  keys (online_info st now a) = probe_keys
  /\ dict_get (dict_update d (online_info st now a)) "status" = Some (VStr "online")
  /\ dict_get (dict_update d (online_info st now a)) "last_checked" = Some (VFloat now)
  /\ dict_get (dict_update d (online_info st now a)) "address" = Some a
  /\ (forall k, In k probe_keys ->
        dict_get (dict_update d (online_info st now a)) k
        = dict_get (online_info st now a) k).
Proof.
  split; [reflexivity|].
  assert (H : forall k v, dict_get (online_info st now a) k = Some v ->
                dict_get (dict_update d (online_info st now a)) k = Some v).
  { intros k v. now apply dict_get_update_in. }
  repeat split; try (apply H; reflexivity).
  intros k Hk. cbn [probe_keys In] in Hk.
  repeat (destruct Hk as [<- | Hk]; [apply H; reflexivity|]). contradiction.
Qed.




(** C9. When the refresher probes an entry and keeps it, the kept entry
    is the old one updated with the eight fields of the result (status,
    version, players_online, players_max, description, latency,
    last_checked, address): each of them takes the value of the result,
    every other key, [added_time] among them, keeps its value, and so
    the age of the entry is counted from the same moment in later
    cycles. *)
Theorem refresh_keeps_added_time
        (server : pyval) (updated : list pyval) (w w' : World) (m : Z)
        (address : pyval) (info : pydict) :
  added_micros server = Some m ->
  (grace < clock w (ticks w) - m)%Z ->
  py_getitem server "address" = Ok address ->
  ping_server address (set_ticks (S (ticks w)) w) = (Ok (VDict info), w') ->
  dict_get info "status" = Some (VStr "online") ->
  exists d,
    server = VDict d
    /\ check_server server updated w
       = (Ok (updated ++ [VDict (dict_update d info)]), w')
    /\ keys info = probe_keys
    /\ (forall k, In k probe_keys ->
          dict_get (dict_update d info) k = dict_get info k)
    /\ (forall k, ~ In k probe_keys ->
          dict_get (dict_update d info) k = dict_get d k)
    /\ dict_get (dict_update d info) "added_time" = dict_get d "added_time"
    /\ added_micros (VDict (dict_update d info)) = Some m.
Proof.
  intros Ha Hage Haddr Hping Hon.
  destruct (check_server_old _ updated w m address info w' Ha Hage Haddr Hping)
    as (d & -> & Hkeep & _).
  exists d. split; [reflexivity|]. split; [now apply Hkeep|].
  destruct (ping_server_result address (set_ticks (S (ticks w)) w))
    as (info' & w'' & Ep & _ & _ & Hcases).
  rewrite Hping in Ep. injection Ep as <- <-.
  destruct Hcases as [(st & a & host & port & -> & _) | (e & a & -> & _)];
    [|discriminate Hon].
  destruct (online_info_fields st (clock (set_ticks (S (ticks w)) w)
                                     (ticks (set_ticks (S (ticks w)) w))) a d)
    as (Hk & _ & _ & _ & Hin).
  assert (Hother : forall k, ~ In k probe_keys ->
            dict_get (dict_update d (online_info st
              (clock (set_ticks (S (ticks w)) w) (ticks (set_ticks (S (ticks w)) w))) a)) k
            = dict_get d k).
  { intros k Hnk. apply dict_get_update_other. now rewrite Hk. }
  assert (Hadd : ~ In "added_time" probe_keys).
  { cbn. intros H. repeat (destruct H as [H|H]; [discriminate H|]). exact H. }
  repeat split; try assumption.
  - now apply Hother.
  - unfold added_micros in *. cbn [py_get] in *. now rewrite (Hother _ Hadd).
Qed.

(** ** Storage *)



(** ** The add-server handler *)

(** C6. A POST to /add-server whose address, once trimmed, is empty or
    does not match the pattern of permitted characters is answered with
    status 400 and an error message, and the world is left exactly as it
    was: no clock reading, no query, no change of the storage file. *)
Theorem add_server_rejects (form : option string) (w : World) :
  strip (match form with Some a => a | None => "" end) = ""
  \/ re_match (strip (match form with Some a => a | None => "" end)) = false ->
  exists message,
    add_server form w = (Ok (Response 400 [("error", message)]), w).
Proof.
  intros H. unfold add_server. cbv zeta.
  destruct (String.eqb_spec (strip match form with Some a => a | None => "" end) "")
    as [E|E].
  - eexists. reflexivity.
  - destruct H as [H|H]; [contradiction|]. rewrite H. eexists. reflexivity.
Qed.

(** ** What the decoder returns is well formed *)

Lemma wf_list_app (a b : list pyval) :
  wf (VList (a ++ b)) = wf (VList a) && wf (VList b).
Proof.
  induction a as [|x a IH]; [reflexivity|].
  rewrite <- app_comm_cons, !JsonFacts.wf_list_cons, IH. now rewrite andb_assoc.
Qed.

Lemma wf_dict_split (d : pydict) :
  wf (VDict d) = unique (keys d) && forallb (fun kv => wf (snd kv)) d.
Proof.
  cbn [wf]. f_equal. induction d as [|[k x] d IH]; [reflexivity|].
  cbn [forallb snd]. now rewrite IH.
Qed.

Lemma keys_dict_set (d : pydict) (k k0 : string) (v : pyval) :
  existsb (String.eqb k0) (keys (dict_set d k v))
  = existsb (String.eqb k0) (keys d) || String.eqb k0 k.
Proof.
  induction d as [|[k1 v1] d IH]; cbn [dict_set keys map fst existsb].
  - now rewrite orb_false_r.
  - destruct (String.eqb_spec k1 k) as [->|Hk]; cbn [keys map fst existsb].
    + destruct (String.eqb k0 k); cbn; [reflexivity|]. now rewrite orb_false_r.
    + fold (keys (dict_set d k v)). rewrite IH. fold (keys d).
      now rewrite orb_assoc.
Qed.

Lemma wf_dict_set (d : pydict) (k : string) (v : pyval) :
  wf (VDict d) = true -> wf v = true -> wf (VDict (dict_set d k v)) = true.
Proof.
  rewrite !wf_dict_split. intros Hd Hv.
  apply andb_true_iff in Hd. destruct Hd as [Hu Hf].
  apply andb_true_iff. split.
  - clear Hf. pose proof (keys_dict_set) as Hk. unfold keys in *.
    induction d as [|[k1 v1] d IH]; [reflexivity|].
    cbn [map fst unique] in Hu. apply andb_true_iff in Hu. destruct Hu as [H1 Hu].
    cbn [dict_set]. destruct (String.eqb_spec k1 k) as [->|Hne].
    + cbn [map fst unique]. now rewrite H1, Hu.
    + cbn [map fst unique]. rewrite Hk.
      apply negb_true_iff in H1. rewrite H1. cbn [orb].
      destruct (String.eqb_spec k1 k) as [|_]; [contradiction|].
      cbn [negb andb]. now apply IH.
  - clear Hu. induction d as [|[k1 v1] d IH]; cbn [dict_set forallb snd].
    + now rewrite Hv.
    + cbn [forallb snd] in Hf. apply andb_true_iff in Hf. destruct Hf as [H1 Hf].
      destruct (String.eqb k1 k); cbn [forallb snd].
      * now rewrite Hv, Hf.
      * now rewrite H1, IH.
Qed.

Lemma scan_number_wf (l : list ascii) (v : pyval) (r : list ascii) :
  Json.scan_number l = Some (v, r) -> wf v = true.
Proof.
  unfold Json.scan_number, Json.scan_unsigned. intros H.
  repeat match type of H with
         | context [match ?x with _ => _ end] => destruct x
         end; try discriminate H; injection H as <- _; reflexivity.
Qed.

Lemma parse_wf (fuel : nat) :
  (forall l v r, Json.parse_value fuel l = Some (v, r) -> wf v = true)
  /\ (forall l acc v r,
        Json.parse_items fuel l acc = Some (v, r) ->
        wf (VList acc) = true -> wf v = true)
  /\ (forall l acc v r,
        Json.parse_members fuel l acc = Some (v, r) ->
        wf (VDict acc) = true -> wf v = true).
Proof.
  induction fuel as [|f (IHv & IHi & IHm)].
  - repeat split; intros; discriminate.
  - split; [|split].
    + intros l v r H. cbn [Json.parse_value] in H.
      destruct l as [|c l]; [discriminate H|].
      destruct (code c =? 34)%N.
      { destruct (Json.scan Json.SNorm None l) as [[s r']|]; [|discriminate H].
        injection H as <- _. reflexivity. }
      destruct (code c =? 91)%N.
      { destruct (Json.skip_ws l) as [|c' r'] eqn:E; [discriminate H|].
        destruct (code c' =? 93)%N.
        - injection H as <- _. reflexivity.
        - now apply (IHi _ _ _ _ H). }
      destruct (code c =? 123)%N.
      { destruct (Json.skip_ws l) as [|c' r'] eqn:E; [discriminate H|].
        destruct (code c' =? 125)%N.
        - injection H as <- _. reflexivity.
        - now apply (IHm _ _ _ _ H). }
      destruct (Json.starts_with (chars "null") (c :: l));
        [injection H as <- _; reflexivity|].
      destruct (Json.starts_with (chars "true") (c :: l));
        [injection H as <- _; reflexivity|].
      destruct (Json.starts_with (chars "false") (c :: l));
        [injection H as <- _; reflexivity|].
      now apply (scan_number_wf _ _ _ H).
    + intros l acc v r H Hacc. cbn [Json.parse_items] in H.
      destruct (Json.parse_value f l) as [[x r1]|] eqn:Ex; [|discriminate H].
      assert (Hw : wf (VList (acc ++ [x])) = true).
      { rewrite wf_list_app, Hacc, JsonFacts.wf_list_cons, (IHv _ _ _ Ex). reflexivity. }
      destruct (Json.skip_ws r1) as [|c r2]; [discriminate H|].
      destruct (code c =? 44)%N; [now apply (IHi _ _ _ _ H)|].
      destruct (code c =? 93)%N; [|discriminate H].
      injection H as <- _. exact Hw.
    + intros l acc v r H Hacc. cbn [Json.parse_members] in H.
      destruct l as [|c l]; [discriminate H|].
      destruct (negb (code c =? 34)%N); [discriminate H|].
      destruct (Json.scan Json.SNorm None l) as [[k r1]|]; [|discriminate H].
      destruct (Json.skip_ws r1) as [|c1 r2]; [discriminate H|].
      destruct (negb (code c1 =? 58)%N); [discriminate H|].
      destruct (Json.parse_value f (Json.skip_ws r2)) as [[x r3]|] eqn:Ex;
        [|discriminate H].
      assert (Hw : wf (VDict (dict_set acc (text k) x)) = true)
        by (apply wf_dict_set; [assumption|apply (IHv _ _ _ Ex)]).
      destruct (Json.skip_ws r3) as [|c3 r4]; [discriminate H|].
      destruct (code c3 =? 44)%N; [now apply (IHm _ _ _ _ H)|].
      destruct (code c3 =? 125)%N; [|discriminate H].
      injection H as <- _. exact Hw.
Qed.

(** The value read from the storage file is well formed. *)
Lemma stored_wf (w : World) : wf (stored w) = true.
Proof.
  unfold stored. destruct (fs w) as [c|]; [|reflexivity].
  unfold Json.json_loads. cbv zeta.
  destruct (Json.parse_value _ _) as [[v r]|] eqn:E; [|reflexivity].
  destruct (Json.skip_ws r); [|reflexivity].
  destruct (parse_wf (S (List.length (chars c)))) as (H & _).
  exact (H _ _ _ E).
Qed.

(** ** Text *)

Lemma append_assoc (a b c : string) :
  ((a ++ b) ++ c = a ++ (b ++ c))%string.
Proof. induction a as [|x a IH]; cbn; [reflexivity|now rewrite IH]. Qed.

Lemma contains_here (needle after : string) :
  contains needle (needle ++ after).
Proof. exists "", after. reflexivity. Qed.

Lemma contains_skip (needle before hay : string) :
  contains needle hay -> contains needle (before ++ hay).
Proof.
  intros (b & a & ->). exists (before ++ b)%string, a. now rewrite append_assoc.
Qed.

Lemma contains_here3 (x y z after : string) :
  contains (x ++ y ++ z) (x ++ y ++ z ++ after).
Proof. exists "", after. cbn. now rewrite !append_assoc. Qed.

Lemma chars_append (a b : string) : chars (a ++ b) = chars a ++ chars b.
Proof. induction a as [|x a IH]; cbn; [reflexivity|]. f_equal. exact IH. Qed.


(** ** The add-server handler, when the server answers *)


Lemma py_eqb_str (x : pyval) (t : string) :
  py_eqb x (VStr t) = true -> x = VStr t.
Proof.
  destruct x as [|b|n|m|s|l|d]; cbn; try discriminate.
  intros H. apply String.eqb_eq in H. now subst.
Qed.

(** The search for the address, over entries that all have one. *)
Lemma any_address_count (servers : list pyval) (info : pydict) (t : string) :
  forallb has_address servers = true ->
  dict_get info "address" = Some (VStr t) ->
  any_address servers (VDict info)
  = Ok (negb (Nat.eqb (count_address t servers) 0)).
Proof.
  intros Hall Ht. induction servers as [|s servers IH]; [reflexivity|].
  cbn [forallb] in Hall. apply andb_true_iff in Hall. destruct Hall as [Hs Hall].
  unfold has_address in Hs. destruct s as [| | | | | |d]; try discriminate Hs.
  cbn [address_of] in Hs. cbn [any_address py_getitem]. rewrite Ht.
  unfold count_address. cbn [filter address_of].
  destruct (dict_get d "address") as [x|]; [|discriminate Hs].
  destruct (py_eqb x (VStr t)); [reflexivity|].
  exact (IH Hall).
Qed.

(** The fragment for a result that says online, stamped or not. *)
Lemma render_online (address : string) (st : reply) (now : Z) (a : pyval)
      (info : pydict) (w : World) :
  (info = online_info st now a
   \/ exists t, info = dict_set (online_info st now a) "added_time" t) ->
  exists html,
    render address (VDict info) w = (Ok html, w)
    /\ contains (py_str (VInt (players_online st)) ++ "/"
                   ++ py_str (VInt (players_max st))) html.
Proof.
  intros [-> | (t & ->)].
  - eexists. split; [reflexivity|].
    repeat first [apply contains_here3 | apply contains_skip].
  - eexists. split; [reflexivity|].
    repeat first [apply contains_here3 | apply contains_skip].
Qed.

Lemma stored_fs (w w' : World) : fs w' = fs w -> stored w' = stored w.
Proof. unfold stored. now intros ->. Qed.

(** What [remember] does with a result that says online: nothing when
    the address is already filed, and otherwise it stamps the result,
    appends it and saves the list. *)
Lemma remember_spec (w : World) (servers : list pyval) (st : reply) (now : Z)
      (t : string) :
  stored w = VList servers ->
  forallb has_address servers = true ->
  remember (VDict (online_info st now (VStr t))) w
  = if Nat.eqb (count_address t servers) 0
    then
      let entry := VDict (dict_set (online_info st now (VStr t)) "added_time"
                            (VFloat (clock w (ticks w)))) in
      (Ok entry,
       set_fs (Some (Json.json_dumps (VList (servers ++ [entry]))))
         (set_ticks (S (ticks w)) w))
    else (Ok (VDict (online_info st now (VStr t))), w).
Proof.
  intros Hs Hall. unfold remember, bind. rewrite load_stored, Hs.
  cbn [lift py_iter].
  rewrite (any_address_count servers _ t Hall) by reflexivity.
  destruct (Nat.eqb (count_address t servers) 0); reflexivity.
Qed.

(** The handler past validation. *)
Lemma add_server_valid (form address : string) (w : World) :
  strip form = address -> address <> "" -> re_match address = true ->
  add_server (Some form) w
  = (server_info <- ping_server (VStr address) ;;
     status <- lift (py_getitem server_info "status") ;;
     if py_eqb status (VStr "online") then
       server_info' <- remember server_info ;;
       html <- render address server_info' ;;
       ret (Response 200 [("html", html)])
     else
       error <- lift (py_get server_info "error" (VStr "Unknown error")) ;;
       ret (Response 200
              [("error",
                ("<div class=" ++ dq ++ "error" ++ dq ++ " style=" ++ dq
                   ++ "color:red; margin-top:20px;" ++ dq
                   ++ ">Сервер не отвечает: " ++ py_str error ++ "</div>")%string)])) w.
Proof.
  intros Hs Hne Hre. unfold add_server. cbv zeta. rewrite Hs.
  destruct (String.eqb_spec address "") as [E|_]; [contradiction|].
  rewrite Hre. reflexivity.
Qed.

(** The probe of a text address files it under its normalized form. *)
Lemma ping_server_str (address : string) (w : World) :
  exists info w',
    ping_server (VStr address) w = (Ok (VDict info), w')
    /\ advances w w'
    /\ ((exists st, info = online_info st (clock w (ticks w))
                             (VStr (normalized address)))
        \/ (exists e, info = offline_info e (VStr (normalized address))
                              (clock w (ticks w)))).
Proof.
  destruct (ping_server_result (VStr address) w)
    as (info & w' & E & A & _ & [(st & a & host & port & -> & Ha & _) | (e & a & -> & Ha)]).
  - eexists _, w'. split; [exact E|]. split; [exact A|]. left. exists st.
    cbn in Ha. injection Ha as <-. reflexivity.
  - eexists _, w'. split; [exact E|]. split; [exact A|]. right. exists e.
    destruct Ha as [Ha | [_ (e' & Ha)]]; [|discriminate Ha].
    cbn in Ha. injection Ha as <-. reflexivity.
Qed.


Lemma count_address_app (t : string) (a b : list pyval) :
  count_address t (a ++ b) = (count_address t a + count_address t b)%nat.
Proof. unfold count_address. now rewrite filter_app, length_app. Qed.

(** The handler, when the server answers and the stored entries all
    have an address: it succeeds, the address is then filed exactly as
    often as before, or once if it was not filed, and the list read from
    the file is the list that was there, with the new entry if one was
    added. *)
Lemma add_server_online (form address : string) (w wp : World)
      (servers : list pyval) (st : reply) (now : Z) :
  strip form = address -> address <> "" -> re_match address = true ->
  stored w = VList servers -> forallb has_address servers = true ->
  ping_server (VStr address) w
  = (Ok (VDict (online_info st now (VStr (normalized address)))), wp) ->
  advances w wp ->
  exists r w1 servers1,
    add_server (Some form) w = (Ok r, w1)
    /\ stored w1 = VList servers1
    /\ forallb has_address servers1 = true
    /\ count_address (normalized address) servers1
       = Nat.max 1 (count_address (normalized address) servers)
    /\ (0 < count_address (normalized address) servers -> fs w1 = fs w)%nat.
Proof.
  intros Hs Hne Hre Hst Hall Hp (_ & _ & Hfs & _).
  rewrite (add_server_valid form address w Hs Hne Hre).
  unfold bind at 1. rewrite Hp.
  unfold bind at 1. cbn [lift py_getitem online_info dict_get String.eqb Ascii.eqb Bool.eqb].
  cbn [py_eqb String.eqb Ascii.eqb Bool.eqb].
  assert (Hsp : stored wp = VList servers) by (rewrite <- Hst; now apply stored_fs).
  unfold bind at 1.
  fold (online_info st now (VStr (normalized address))).
  rewrite (remember_spec wp servers st _ _ Hsp Hall).
  destruct (Nat.eqb_spec (count_address (normalized address) servers) 0) as [Hz|Hnz].
  - cbv zeta.
    set (entry := VDict (dict_set (online_info st now (VStr (normalized address)))
                           "added_time" (VFloat (clock wp (ticks wp))))).
    set (w1 := set_fs (Some (Json.json_dumps (VList (servers ++ [entry]))))
                 (set_ticks (S (ticks wp)) wp)).
    destruct (render_online address st now (VStr (normalized address))
                (dict_set (online_info st now (VStr (normalized address)))
                   "added_time" (VFloat (clock wp (ticks wp)))) w1)
      as (html & Er & _); [right; eexists; reflexivity|].
    fold entry in Er. unfold bind. rewrite Er. unfold ret.
    exists (Response 200 [("html", html)]), w1, (servers ++ [entry]).
    split; [reflexivity|].
    assert (Hwf : wf (VList (servers ++ [entry])) = true).
    { rewrite wf_list_app. rewrite <- Hst, stored_wf. reflexivity. }
    split; [|split; [|split]].
    + unfold stored, w1. cbn [fs set_fs]. now rewrite JsonFacts.json_roundtrip.
    + rewrite forallb_app, Hall. reflexivity.
    + rewrite count_address_app, Hz. unfold count_address, entry.
      cbn [filter address_of dict_set online_info dict_get String.eqb Ascii.eqb Bool.eqb].
      cbn [py_eqb]. rewrite String.eqb_refl. reflexivity.
    + intros H. lia.
  - destruct (render_online address st now (VStr (normalized address))
                (online_info st now (VStr (normalized address))) wp)
      as (html & Er & _); [now left|].
    unfold bind. rewrite Er. unfold ret.
    exists (Response 200 [("html", html)]), wp, servers.
    split; [reflexivity|]. split; [exact Hsp|]. split; [exact Hall|].
    split; [lia|]. intros _. exact Hfs.
Qed.

(** The handler, when the server does not answer: an error fragment, and
    the storage file as it was. *)
Lemma add_server_offline (form address : string) (w wp : World)
      (e : exn) (now : Z) :
  strip form = address -> address <> "" -> re_match address = true ->
  ping_server (VStr address) w
  = (Ok (VDict (offline_info e (VStr (normalized address)) now)), wp) ->
  exists r, add_server (Some form) w = (Ok r, wp).
Proof.
  intros Hs Hne Hre Hp.
  rewrite (add_server_valid form address w Hs Hne Hre).
  unfold bind at 1. rewrite Hp. eexists. reflexivity.
Qed.


(** ** The statements at the sample worlds *)




(** The sample entry whose server answers, probed again. *)
Lemma refresh_keeps_added_time_witness :
  exists d,
    entry_online = VDict d
    /\ check_server entry_online [] (world_with [entry_online])
       = (Ok ([] ++ [VDict (dict_update d
                              (info_of (ping_server (VStr "mc.example.com:25565")
                                          (set_ticks 1 (world_with [entry_online])))))]),
          snd (ping_server (VStr "mc.example.com:25565")
                 (set_ticks 1 (world_with [entry_online]))))
    /\ keys (info_of (ping_server (VStr "mc.example.com:25565")
                        (set_ticks 1 (world_with [entry_online])))) = probe_keys
    /\ (forall k, In k probe_keys ->
          dict_get (dict_update d
                      (info_of (ping_server (VStr "mc.example.com:25565")
                                  (set_ticks 1 (world_with [entry_online]))))) k
          = dict_get (info_of (ping_server (VStr "mc.example.com:25565")
                                 (set_ticks 1 (world_with [entry_online])))) k)
    /\ (forall k, ~ In k probe_keys ->
          dict_get (dict_update d
                      (info_of (ping_server (VStr "mc.example.com:25565")
                                  (set_ticks 1 (world_with [entry_online]))))) k
          = dict_get d k)
    /\ dict_get (dict_update d
                   (info_of (ping_server (VStr "mc.example.com:25565")
                               (set_ticks 1 (world_with [entry_online])))))
         "added_time"
       = dict_get d "added_time"
    /\ added_micros (VDict (dict_update d
                              (info_of (ping_server (VStr "mc.example.com:25565")
                                          (set_ticks 1 (world_with [entry_online]))))))
       = Some (1699999000 * million)%Z.
Proof.
  apply (refresh_keeps_added_time entry_online [] (world_with [entry_online])
           (snd (ping_server (VStr "mc.example.com:25565")
                   (set_ticks 1 (world_with [entry_online]))))
           (1699999000 * million)%Z
           (VStr "mc.example.com:25565")
           (info_of (ping_server (VStr "mc.example.com:25565")
                       (set_ticks 1 (world_with [entry_online])))));
    vm_compute; reflexivity.
Defined.



(** The malformed address [!!bad]. *)
Lemma add_server_rejects_witness :
  exists message,
    add_server (Some "!!bad") empty_world
    = (Ok (Response 400 [("error", message)]), empty_world).
Proof.
  apply (add_server_rejects (Some "!!bad") empty_world).
  right. vm_compute. reflexivity.
Defined.




(** * Further properties of [run.py] *)

(** ** The prober, case by case *)

(** The probe of a text, spelled out: the port is converted, the query
    is made, and each failure becomes an offline result. *)
Lemma ping_server_text (s : string) (w : World) :
  ping_server (VStr s) w
  = match py_int (text (snd (split_colon (chars (normalized s))))) with
    | Raise e =>
        (Ok (VDict (offline_info e (VStr (normalized s)) (clock w (ticks w)))),
         set_ticks (S (ticks w)) w)
    | Ok p =>
        let host := text (fst (split_colon (chars (normalized s)))) in
        let w1 := set_queries (queries w ++ [(host, p)]) w in
        match net w (List.length (queries w)) host p with
        | Ok st =>
            (Ok (VDict (online_info st (clock w (ticks w)) (VStr (normalized s)))),
             set_ticks (S (ticks w)) w1)
        | Raise e =>
            (Ok (VDict (offline_info e (VStr (normalized s)) (clock w (ticks w)))),
             set_ticks (S (ticks w)) w1)
        end
    end.
Proof.
  unfold ping_server. cbn [with_port]. fold (normalized s).
  unfold try_except, ping_query.
  destruct (split_colon (chars (normalized s))) as [host port]. cbn [fst snd]. run.
  destruct (py_int (text port)) as [p|e]; [|reflexivity].
  cbv zeta. destruct (net w (List.length (queries w)) (text host) p); reflexivity.
Qed.

(** The probe of an object that is not a text. *)
Lemma ping_server_other (address : pyval) (w : World) :
  (forall s, address <> VStr s) ->
  exists e a,
    ping_server address w
    = (Ok (VDict (offline_info e a (clock w (ticks w)))), set_ticks (S (ticks w)) w).
Proof.
  intros Hns. unfold ping_server.
  destruct address as [| b | n | m | s | l | d]; try (eexists _, _; reflexivity).
  - exfalso. now apply (Hns s).
  - cbn [with_port]. destruct (existsb _ l); eexists _, _; reflexivity.
  - cbn [with_port]. destruct (existsb _ (keys d)); eexists _, _; reflexivity.
Qed.

(** X1. Whatever object it is given, [ping_server] returns a dict whose
    status is "online" or "offline" and whose [last_checked] is the one
    reading of the clock it takes; it makes at most one status query
    and leaves the storage file and the log alone; and it says online
    only when it made a query and the network answered it. *)
Theorem ping_server_frame (address : pyval) (w : World) :
  exists info w',
    ping_server address w = (Ok (VDict info), w')
    /\ ticks w' = S (ticks w) /\ clock w' = clock w /\ net w' = net w
    /\ fs w' = fs w /\ log w' = log w
    /\ (queries w' = queries w \/ exists q, queries w' = queries w ++ [q])
    /\ dict_get info "last_checked" = Some (VFloat (clock w (ticks w)))
    /\ (dict_get info "status" = Some (VStr "offline")
        \/ (dict_get info "status" = Some (VStr "online")
            /\ exists host port st,
                 queries w' = queries w ++ [(host, port)]
                 /\ net w (List.length (queries w)) host port = Ok st
                 /\ dict_get info "players_online" = Some (VInt (players_online st))
                 /\ dict_get info "players_max" = Some (VInt (players_max st)))).
Proof.
  assert (Hoff : forall e a,
    exists info w',
      (Ok (VDict (offline_info e a (clock w (ticks w)))), set_ticks (S (ticks w)) w)
      = (Ok (VDict info), w')
      /\ ticks w' = S (ticks w) /\ clock w' = clock w /\ net w' = net w
      /\ fs w' = fs w /\ log w' = log w
      /\ (queries w' = queries w \/ exists q, queries w' = queries w ++ [q])
      /\ dict_get info "last_checked" = Some (VFloat (clock w (ticks w)))
      /\ (dict_get info "status" = Some (VStr "offline")
          \/ (dict_get info "status" = Some (VStr "online")
              /\ exists host port st,
                   queries w' = queries w ++ [(host, port)]
                   /\ net w (List.length (queries w)) host port = Ok st
                   /\ dict_get info "players_online" = Some (VInt (players_online st))
                   /\ dict_get info "players_max" = Some (VInt (players_max st))))).
  { intros e a. eexists _, _. split; [reflexivity|].
    do 5 (split; [reflexivity|]). split; [now left|].
    split; [reflexivity|]. now left. }
  destruct address as [| b | n | m | s | l | d].
  1-4, 6-7:
    match goal with
    | |- context [ping_server ?a ?w0] =>
        destruct (ping_server_other a w0) as (e & a' & E); [discriminate|];
        rewrite E; apply Hoff
    end.
  rewrite ping_server_text.
  destruct (py_int _) as [p|e]; [|apply Hoff].
  cbv zeta. destruct (net w _ _ p) as [st|e] eqn:En.
  - eexists _, _. split; [reflexivity|].
    do 5 (split; [reflexivity|]). split; [right; eexists; reflexivity|].
    split; [reflexivity|]. right. split; [reflexivity|].
    eexists _, _, st. split; [reflexivity|]. split; [exact En|]. split; reflexivity.
  - eexists _, _. split; [reflexivity|].
    do 5 (split; [reflexivity|]). split; [right; eexists; reflexivity|].
    split; [reflexivity|]. now left.
Qed.

(** X2. An address that is not a text (a number, a list, a dict or
    [None] read from the storage file) is never queried: the result says
    offline and the world only sees its clock read once. *)
Theorem ping_server_not_text (address : pyval) (w : World) :
  (forall s, address <> VStr s) ->
  exists info,
    ping_server address w = (Ok (VDict info), set_ticks (S (ticks w)) w)
    /\ dict_get info "status" = Some (VStr "offline")
    /\ queries (set_ticks (S (ticks w)) w) = queries w.
Proof.
  intros H. destruct (ping_server_other address w H) as (e & a & E).
  rewrite E. eexists. repeat split.
Qed.


(** ** What the validation accepts *)






(** ** From validation to the query *)








(** ** The refresher, for any stored list *)





Lemma check_server_unusable (server : pyval) (updated : list pyval) (w : World) :
  added_micros server = None ->
  exists e, check_server server updated w = (Raise e, set_ticks (S (ticks w)) w).
Proof.
  unfold added_micros, check_server. run. intros H.
  destruct (py_get server "added_time" (VInt 0)) as [a|e]; [|eexists; reflexivity].
  unfold float_minus. rewrite H. eexists. reflexivity.
Qed.

(** X7. One stored item that is not a dict, or whose [added_time] is not
    a number, stops the whole turn when the loop reaches it: nothing is
    saved, so the storage file keeps every entry it had, those whose
    probe had just said offline included, and the error is logged. *)
Theorem unusable_entry_blocks_cycle
        (w : World) (before after : list pyval) (bad : pyval) :
  stored w = VList (before ++ bad :: after) ->
  forallb entry_ok before = true ->
  added_micros bad = None ->
  exists e w',
    server_checker_cycle w = (Ok tt, w')
    /\ fs w' = fs w
    /\ log w' = log w ++ [("Server checker error: " ++ exn_text e)%string].
Proof.
  intros Hs Hok Hbad.
  destruct (check_loop_spec before w Hok) as (kept & w1 & Eb & (_ & _ & F & L & _) & _).
  destruct (check_server_unusable bad kept w1 Hbad) as (e & Ec).
  exists e. unfold server_checker_cycle, check_all, try_except, bind.
  rewrite load_stored, Hs. cbn [lift py_iter].
  rewrite check_loop_app, Eb. cbn [check_loop]. unfold bind. rewrite Ec.
  eexists. split; [reflexivity|]. cbn. split; [assumption|]. now rewrite L.
Qed.


Lemma check_server_length (server : pyval) (w : World)
      (out : list pyval) (w' : World) :
  check_server server [] w = (Ok out, w') -> (List.length out <= 1)%nat.
Proof.
  unfold check_server. run.
  destruct (py_get server "added_time" (VInt 0)) as [a|e]; [|discriminate].
  destruct (float_minus (clock w (ticks w)) a) as [age|e]; [|discriminate].
  destruct (grace <? age)%Z;
    [|intros H; injection H as <- _; cbn; lia].
  destruct (py_getitem server "address") as [address|e]; [|discriminate].
  destruct (ping_server address _) as [[status|e] w1]; [|discriminate].
  destruct (py_getitem status "status") as [st|e]; [|discriminate].
  destruct (py_eqb st (VStr "online")).
  - destruct (py_update server status); [|discriminate].
    intros H; injection H as <- _; cbn; lia.
  - intros H; injection H as <- _; cbn; lia.
Qed.

Lemma subseq_app {A : Type} (a1 a2 b1 b2 : list A) :
  subseq a1 a2 -> subseq b1 b2 -> subseq (a1 ++ b1) (a2 ++ b2).
Proof.
  intros Ha Hb. induction Ha; cbn;
    [assumption | now apply subseq_skip | now apply subseq_keep].
Qed.


Lemma subseq_incl {A : Type} (l1 l2 : list A) :
  subseq l1 l2 -> forall x, In x l1 -> In x l2.
Proof.
  induction 1; intros y Hy; [assumption| |].
  - right. auto.
  - destruct Hy as [<-|Hy]; [now left|right; auto].
Qed.

(** The address under which an entry with a port is filed is the one
    it keeps when a probe updates it. *)
Lemma kept_address (w w' : World) (s e : pyval) :
  has_port s = true ->
  kept_in_grace w w' [s] e \/ kept_online w w' [s] e ->
  address_of e = address_of s.
Proof.
  intros Hp [(Hi & _) | (d & a0 & st & a & k & Hi & _ & Hd & Hw & ->)].
  - destruct Hi as [<-|[]]. reflexivity.
  - destruct Hi as [Hi|[]]. subst s. unfold has_port in Hp. cbn [address_of] in *.
    rewrite Hd in Hp. destruct a0 as [| | | |s0| |]; try discriminate Hp.
    cbn [with_port] in Hw. rewrite Hp in Hw. injection Hw as <-.
    destruct (online_info_fields st (clock w k) (VStr s0) d) as (_ & _ & _ & -> & _).
    now rewrite Hd.
Qed.

Lemma check_loop_subseq (servers : list pyval) : forall w out w',
  forallb entry_ok servers = true ->
  forallb has_port servers = true ->
  check_loop servers [] w = (Ok out, w') ->
  subseq (map address_of out) (map address_of servers).
Proof.
  induction servers as [|s servers IH]; intros w out w' Hok Hp; cbn [check_loop].
  - intros H. injection H as <- _. constructor.
  - cbn [forallb] in Hok, Hp.
    apply andb_true_iff in Hok. destruct Hok as [Hs Hok].
    apply andb_true_iff in Hp. destruct Hp as [Hps Hp].
    unfold bind.
    destruct (check_server_spec s w Hs) as (o1 & w1 & E1 & _ & _ & F1).
    rewrite E1, check_loop_acc.
    destruct (check_loop servers [] w1) as [[o2|e] w2] eqn:E2; [|discriminate].
    intros H. injection H as <- _.
    rewrite map_app. cbn [map].
    change (address_of s :: map address_of servers)
      with ([address_of s] ++ map address_of servers).
    apply subseq_app; [|exact (IH _ _ _ Hok Hp E2)].
    pose proof (check_server_length _ _ _ _ E1) as Hlen.
    destruct o1 as [|e [|e' o1]]; cbn in Hlen; try lia.
    + cbn. apply subseq_skip, subseq_nil.
    + inversion F1 as [|? ? He _]; subst. cbn [map].
      rewrite (kept_address w w1 s e Hps He). apply subseq_keep, subseq_nil.
Qed.


(** X10. An entry without [added_time] counts as added at time zero: at
    any clock reading later than 300 s it is probed, in every cycle,
    since the update that keeps it when it answers does not give it an
    [added_time]. *)
Theorem entry_without_added_time_is_probed
        (d : pydict) (address : pyval) (updated : list pyval) (w : World) :
  dict_get d "added_time" = None ->
  dict_get d "address" = Some address ->
  (grace < clock w (ticks w))%Z ->
  exists info w',
    ping_server address (set_ticks (S (ticks w)) w) = (Ok (VDict info), w')
    /\ ((dict_get info "status" = Some (VStr "online")
         /\ check_server (VDict d) updated w
            = (Ok (updated ++ [VDict (dict_update d info)]), w')
         /\ dict_get (dict_update d info) "added_time" = None)
        \/ (dict_get info "status" = Some (VStr "offline")
            /\ check_server (VDict d) updated w = (Ok updated, w'))).
Proof.
  intros Hadd Haddr Hclock.
  assert (Ha : added_micros (VDict d) = Some 0%Z).
  { unfold added_micros. cbn [py_get]. now rewrite Hadd. }
  assert (Hg : py_getitem (VDict d) "address" = Ok address).
  { cbn [py_getitem]. now rewrite Haddr. }
  destruct (ping_server_result address (set_ticks (S (ticks w)) w))
    as (info & w' & Ep & _ & _ & Hcases).
  destruct (check_server_old (VDict d) updated w 0 address info w' Ha
              ltac:(lia) Hg Ep) as (d' & Ed & Hon & Hoff).
  injection Ed as <-.
  exists info, w'. split; [exact Ep|].
  destruct Hcases as [(st & a & host & port & -> & _) | (e & a & -> & _)].
  - left. split; [reflexivity|]. split; [now apply Hon|].
    rewrite dict_get_update_other; [exact Hadd|].
    cbn. intros H. repeat (destruct H as [H|H]; [discriminate H|]). exact H.
  - right. split; [reflexivity|]. now apply Hoff.
Qed.


(** ** The add-server handler, in every case *)

Lemma render_frame (address : string) (info : pyval) (w : World)
      (r : result string) (w' : World) :
  render address info w = (r, w') -> w' = w.
Proof.
  unfold render. run.
  repeat match goal with
         | |- context [match ?x with Ok _ => _ | Raise _ => _ end] => destruct x
         end; intros H; now injection H.
Qed.

(** X12. When the probe of a valid address says offline, the handler
    answers with status 200 and an error fragment that shows the error
    message of the probe, and it does not touch the storage file: a
    server that does not answer is never filed. *)
Theorem add_server_reports_failure
        (form address : string) (w wp : World) (info : pydict) :
  strip form = address -> address <> "" -> re_match address = true ->
  ping_server (VStr address) w = (Ok (VDict info), wp) ->
  dict_get info "status" = Some (VStr "offline") ->
  exists message html,
    dict_get info "error" = Some (VStr message)
    /\ add_server (Some form) w = (Ok (Response 200 [("error", html)]), wp)
    /\ contains message html
    /\ fs wp = fs w.
Proof.
  intros Hs Hne Hre Hp Hoff.
  destruct (ping_server_str address w) as (info' & wp' & E & A & Hcases).
  rewrite Hp in E. injection E as <- <-.
  destruct Hcases as [(st & ->) | (e & ->)]; [discriminate Hoff|].
  exists (exn_text e). eexists. split; [reflexivity|].
  rewrite (add_server_valid form address w Hs Hne Hre).
  unfold bind at 1. rewrite Hp. split; [reflexivity|]. split; [|apply A].
  cbn [py_str]. repeat first [apply contains_here | apply contains_skip].
Qed.

(** What the handler did to the storage file: nothing, or it appended
    the stamped result of an online probe of an accepted address that
    the search did not find in the list. *)
Lemma add_server_outcome
      (form : option string) (w : World) (r : result response) (w' : World) :
  add_server form w = (r, w') ->
  fs w' = fs w
  \/ exists items st address,
       stored w = VList items
       /\ re_match address = true
       /\ any_address items
            (VDict (online_info st (clock w (ticks w)) (VStr (normalized address))))
          = Ok false
       /\ fs w'
          = Some (Json.json_dumps
                    (VList (items ++
                       [VDict (dict_set
                                 (online_info st (clock w (ticks w))
                                    (VStr (normalized address)))
                                 "added_time" (VFloat (clock w (S (ticks w)))))]))).
Proof.
  unfold add_server. cbv zeta.
  set (address := strip match form with Some a => a | None => "" end).
  destruct (String.eqb address ""); [intros H; injection H as _ <-; now left|].
  destruct (re_match address) eqn:Hre; cbn [negb];
    [|intros H; injection H as _ <-; now left].
  unfold bind at 1.
  destruct (ping_server_result (VStr address) w)
    as (info & wp & E & (C & _ & F & _) & T & Hcases).
  rewrite E. unfold bind at 1.
  destruct Hcases as [(st & a & host & port & -> & Ha & _) | (e & a & -> & _)].
  - cbn in Ha. injection Ha as <-. fold (normalized address).
    cbn [lift py_getitem online_info dict_get String.eqb Ascii.eqb Bool.eqb].
    cbn [py_eqb String.eqb Ascii.eqb Bool.eqb].
    fold (online_info st (clock w (ticks w)) (VStr (normalized address))).
    unfold bind at 1. unfold remember. unfold bind at 1. rewrite load_stored.
    unfold bind at 1. unfold lift at 1.
    assert (Hst : stored wp = stored w) by now apply stored_fs.
    destruct (py_iter (stored wp)) as [items|e1] eqn:Ei;
      [|intros H; injection H as _ <-; now left].
    unfold bind at 1. unfold lift at 1.
    destruct (any_address items _) as [[|]|e1] eqn:Eany.
    + unfold ret at 1. unfold bind.
      destruct (render address _ wp) as [[html|e2] w2] eqn:Er;
        apply render_frame in Er; subst w2;
        intros H; injection H as _ <-; now left.
    + unfold bind at 1. unfold time_time at 1.
      unfold bind at 1. unfold lift at 1. cbn [py_setitem].
      unfold bind at 1. unfold lift at 1.
      destruct (py_append (stored wp) _) as [servers'|e1] eqn:Ea;
        [|intros H; injection H as _ <-; now left].
      unfold bind at 1. unfold save_servers at 1. unfold ret at 1. unfold bind.
      destruct (stored wp) as [| | | | |l|] eqn:El; try discriminate Ea.
      cbn [py_append] in Ea. injection Ea as <-.
      cbn [py_iter] in Ei. injection Ei as <-.
      destruct (render address _ _) as [[html|e2] w2] eqn:Er;
        apply render_frame in Er; subst w2;
        intros H; injection H as _ <-; right;
        exists l, st, address;
        (split; [congruence|]); (split; [exact Hre|]); (split; [exact Eany|]);
        cbn [fs set_fs set_ticks]; rewrite C, T; reflexivity.
    + intros H; injection H as _ <-; now left.
  - cbn. intros H; injection H as _ <-; now left.
Qed.


(** X14. When the storage file holds a JSON document that is not a list
    (an object, a text, a number), the handler cannot file a server that
    answers: it raises, which the web framework turns into an error
    response, and the storage file is left as it was. *)
Theorem add_server_needs_a_list
        (form address : string) (w wp : World) (info : pydict) :
  strip form = address -> address <> "" -> re_match address = true ->
  ping_server (VStr address) w = (Ok (VDict info), wp) ->
  dict_get info "status" = Some (VStr "online") ->
  (forall l, stored w <> VList l) ->
  exists e w',
    add_server (Some form) w = (Raise e, w') /\ fs w' = fs w.
Proof.
  intros Hs Hne Hre Hp Hon Hnl.
  destruct (ping_server_str address w) as (info' & wp' & E & (C & _ & F & _) & Hcases).
  rewrite Hp in E. injection E as <- <-.
  destruct Hcases as [(st & ->) | (e & ->)]; [|discriminate Hon].
  rewrite (add_server_valid form address w Hs Hne Hre).
  unfold bind at 1. rewrite Hp. unfold bind at 1.
  cbn [lift py_getitem online_info dict_get String.eqb Ascii.eqb Bool.eqb].
  cbn [py_eqb String.eqb Ascii.eqb Bool.eqb].
  fold (online_info st (clock w (ticks w)) (VStr (normalized address))).
  unfold bind at 1. unfold remember. unfold bind at 1. rewrite load_stored.
  assert (Hst : stored wp = stored w) by now apply stored_fs.
  rewrite Hst.
  destruct (stored w) as [| b | n | m | s | l | d];
    try (eexists _, _; split; [reflexivity|exact F]).
  - destruct s as [|c s].
    + eexists _, _. split; [reflexivity|]. exact F.
    + eexists _, _. split; [reflexivity|]. exact F.
  - exfalso. now apply (Hnl l).
  - destruct d as [|[k v] d].
    + eexists _, _. split; [reflexivity|]. exact F.
    + eexists _, _. split; [reflexivity|]. exact F.
Qed.

(** ** Blanks around the submitted address *)







(** ** The shape of the stored list is kept *)

Lemma normalized_has_colon (a : string) : has_colon (normalized a) = true.
Proof.
  unfold normalized. destruct (has_colon a) eqn:E; [exact E|].
  unfold has_colon. rewrite chars_append, existsb_app.
  change (existsb (Ascii.eqb colon) (chars ":25565")) with true.
  apply orb_true_r.
Qed.

Lemma any_address_absent (items : list pyval) (info : pydict) (t : string) :
  any_address items (VDict info) = Ok false ->
  dict_get info "address" = Some (VStr t) ->
  ~ In (Some (VStr t)) (map address_of items).
Proof.
  intros Hany Ht. induction items as [|s items IH]; [intros []|].
  cbn [any_address] in Hany.
  destruct (py_getitem s "address") as [a|e] eqn:Ea; [|discriminate Hany].
  cbn [py_getitem] in Hany. rewrite Ht in Hany.
  destruct (py_eqb a (VStr t)) eqn:Eq; [discriminate Hany|].
  cbn [map In]. intros [H|H]; [|exact (IH Hany H)].
  destruct s as [| | | | | |d]; try discriminate H.
  cbn [address_of] in H. cbn [py_getitem] in Ea. rewrite H in Ea.
  injection Ea as <-. cbn [py_eqb] in Eq. now rewrite String.eqb_refl in Eq.
Qed.

Lemma NoDup_snoc {A : Type} (l : list A) (x : A) :
  NoDup l -> ~ In x l -> NoDup (l ++ [x]).
Proof.
  intros Hl Hx. induction Hl as [|y l Hy Hl IH]; cbn.
  - constructor; [intros []|constructor].
  - constructor.
    + intros H. apply in_app_or in H. destruct H as [H|[H|[]]]; [contradiction|].
      subst. apply Hx. now left.
    + apply IH. intros H. apply Hx. now right.
Qed.

Lemma add_server_well_kept
        (form : option string) (w : World) (servers : list pyval)
        (r : result response) (w' : World) :
  stored w = VList servers ->
  well_kept servers ->
  add_server form w = (r, w') ->
  exists servers', stored w' = VList servers' /\ well_kept servers'.
Proof.
  intros Hs (Hok & Hp & Hnd) H.
  destruct (add_server_outcome form w r w' H)
    as [Hf | (items & st & address & Hs' & _ & Hany & Hf)].
  - exists servers. split; [|now repeat split].
    rewrite <- Hs. now apply stored_fs.
  - rewrite Hs in Hs'. injection Hs' as <-.
    eexists. split.
    + unfold stored. rewrite Hf. rewrite JsonFacts.json_roundtrip; [reflexivity|].
      rewrite wf_list_app, <- Hs, stored_wf. reflexivity.
    + split; [|split].
      * rewrite forallb_app, Hok. reflexivity.
      * rewrite forallb_app, Hp. cbn [forallb]. unfold has_port.
        cbn [address_of dict_set online_info dict_get String.eqb Ascii.eqb Bool.eqb].
        now rewrite normalized_has_colon.
      * rewrite map_app. cbn [map]. apply NoDup_snoc; [exact Hnd|].
        cbn [address_of dict_set online_info dict_get String.eqb Ascii.eqb Bool.eqb].
        now apply (any_address_absent _ _ _ Hany).
Qed.

(** X16. The handler keeps the stored list in shape: when the list read
    from the storage file holds entries fit for the refresher, filed
    under pairwise distinct addresses with a port, so does the list read
    from the file after the handler has run, whatever was submitted and
    whatever the probe returned. *)
Theorem add_server_keeps_list_well_kept
        (form : option string) (w : World) (servers : list pyval)
        (r : result response) (w' : World) :
  stored w = VList servers ->
  well_kept servers ->
  add_server form w = (r, w') ->
  exists servers', stored w' = VList servers' /\ well_kept servers'.
Proof. exact (add_server_well_kept form w servers r w'). Qed.

Lemma wf_list_forallb (l : list pyval) : wf (VList l) = forallb wf l.
Proof.
  induction l as [|x l IH]; [reflexivity|].
  rewrite JsonFacts.wf_list_cons, IH. reflexivity.
Qed.

Lemma wf_dict_update (o d : pydict) :
  wf (VDict d) = true -> forallb (fun kv => wf (snd kv)) o = true ->
  wf (VDict (dict_update d o)) = true.
Proof.
  unfold dict_update. revert d.
  induction o as [|[k v] o IH]; intros d Hd Ho; [exact Hd|].
  cbn [forallb snd] in Ho. apply andb_true_iff in Ho. destruct Ho as [Hv Ho].
  cbn [fold_left fst snd]. apply IH; [|exact Ho]. now apply wf_dict_set.
Qed.

Lemma subseq_NoDup {A : Type} (l1 l2 : list A) :
  subseq l1 l2 -> NoDup l2 -> NoDup l1.
Proof.
  induction 1 as [|x l1 l2 Hsub IH|x l1 l2 Hsub IH]; intros Hnd.
  - constructor.
  - inversion Hnd; subst. auto.
  - inversion Hnd as [|? ? Hx Hnd']; subst. constructor; [|auto].
    intros Hin. apply Hx. exact (subseq_incl _ _ Hsub _ Hin).
Qed.

(** An entry of the new list is as fit as the entries of the old one. *)
Lemma survivor_fit (w w' : World) (l : list pyval) (e : pyval) :
  forallb entry_ok l = true -> forallb has_port l = true ->
  forallb wf l = true ->
  kept_in_grace w w' l e \/ kept_online w w' l e ->
  entry_ok e = true /\ has_port e = true /\ wf e = true.
Proof.
  intros Hok Hp Hwf. rewrite forallb_forall in Hok, Hp, Hwf.
  intros [(Hi & _) | (d & a0 & st & a & k & Hi & _ & Hd & Hw & ->)].
  - auto.
  - specialize (Hok _ Hi). specialize (Hp _ Hi). specialize (Hwf _ Hi).
    unfold has_port in Hp. cbn [address_of] in Hp. rewrite Hd in Hp.
    destruct a0 as [| | | |s0| |]; try discriminate Hp.
    cbn [with_port] in Hw. rewrite Hp in Hw. injection Hw as <-.
    destruct (online_info_fields st (clock w k) (VStr s0) d) as (Hk & _ & _ & Ha & _).
    assert (Hadd : dict_get (dict_update d (online_info st (clock w k) (VStr s0)))
                     "added_time" = dict_get d "added_time").
    { apply dict_get_update_other. rewrite Hk. cbn.
      intros H. repeat (destruct H as [H|H]; [discriminate H|]). exact H. }
    split; [|split].
    + unfold entry_ok in *. rewrite Ha. rewrite Hd in Hok.
      unfold added_micros in *. cbn [py_get] in *. rewrite Hadd. exact Hok.
    + unfold has_port. cbn [address_of]. now rewrite Ha.
    + apply wf_dict_update; [exact Hwf|reflexivity].
Qed.

Lemma cycle_well_kept (w : World) (servers : list pyval) :
  stored w = VList servers ->
  well_kept servers ->
  exists updated w',
    server_checker_cycle w = (Ok tt, w')
    /\ stored w' = VList updated
    /\ well_kept updated.
Proof.
  intros Hs (Hok & Hp & Hnd).
  destruct (check_loop_spec servers w Hok) as (out & w1 & El & _ & HF).
  destruct (cycle_saves w servers out w1 Hs El) as (w' & Ec & Ef & _).
  assert (Hwf : forallb wf servers = true).
  { rewrite <- wf_list_forallb, <- Hs. apply stored_wf. }
  assert (Hfit : forall e, In e out ->
            entry_ok e = true /\ has_port e = true /\ wf e = true).
  { intros e He. rewrite Forall_forall in HF.
    exact (survivor_fit w w1 servers e Hok Hp Hwf (HF e He)). }
  exists out, w'. split; [exact Ec|]. split; [|split; [|split]].
  - unfold stored. rewrite Ef, JsonFacts.json_roundtrip; [reflexivity|].
    rewrite wf_list_forallb. apply forallb_forall. intros e He. now apply Hfit.
  - apply forallb_forall. intros e He. now apply Hfit.
  - apply forallb_forall. intros e He. now apply Hfit.
  - exact (subseq_NoDup _ _ (check_loop_subseq servers w out w1 Hok Hp El) Hnd).
Qed.


(** ** The list page *)

Lemma minutes_threshold (age : Z) :
  (0 <? int_of_float (float_div age 60))%Z = (60 * million <=? age)%Z.
Proof.
  unfold int_of_float, float_div, million.
  rewrite Z.quot_quot by lia. change (60 * 1000000)%Z with 60000000%Z.
  destruct (Z.leb_spec 60000000 age) as [H|H].
  - apply Z.ltb_lt. rewrite Z.quot_div_nonneg by lia.
    apply Z.div_str_pos. lia.
  - apply Z.ltb_ge. destruct (Z.le_gt_cases 0 age) as [H0|H0].
    + rewrite Z.quot_small by lia. lia.
    + rewrite <- (Z.opp_involutive age), Z.quot_opp_l by lia.
      assert (0 <= Z.quot (- age) 60000000)%Z by (apply Z.quot_pos; lia). lia.
Qed.

Lemma minutes_value (age : Z) :
  (60 * million <= age)%Z ->
  int_of_float (float_div age 60) = (age / (60 * million))%Z.
Proof.
  unfold int_of_float, float_div, million. intros H.
  rewrite Z.quot_quot by lia. apply Z.quot_div_nonneg; lia.
Qed.

(** The body of the loop on a dict whose [added_time], when it has one,
    is a number: two readings of the clock, and the label from the age
    at the second one. *)
Lemma add_label_dated (d : pydict) (w : World) (m : Z) :
  match dict_get d "added_time" with
  | Some x => micros_of x
  | None => Some (clock w (ticks w))
  end = Some m ->
  exists label,
    add_label (VDict d) w
    = (Ok (VDict (dict_set d "added_str" (VStr label))),
       set_ticks (S (S (ticks w))) w)
    /\ ((clock w (S (ticks w)) - m < 60 * million)%Z ->
        label = "только что")
    /\ ((60 * million <= clock w (S (ticks w)) - m)%Z ->
        label = (py_str (VInt ((clock w (S (ticks w)) - m) / (60 * million)))
                   ++ " минут назад")%string).
Proof.
  intros Hm. unfold add_label. run. cbn [ticks clock set_ticks].
  assert (E : micros_of match dict_get d "added_time" with
                        | Some x => x
                        | None => VFloat (clock w (ticks w))
                        end = Some m).
  { destruct (dict_get d "added_time"); exact Hm. }
  unfold float_minus. rewrite E. cbn [py_setitem].
  eexists. split; [reflexivity|]. rewrite minutes_threshold. split; intros H.
  - destruct (Z.leb_spec (60 * million) (clock w (S (ticks w)) - m)); [lia|reflexivity].
  - destruct (Z.leb_spec (60 * million) (clock w (S (ticks w)) - m)); [|lia].
    now rewrite minutes_value.
Qed.

Lemma dated_dict (d : pydict) :
  dated (VDict d) = true ->
  forall t, exists m,
    match dict_get d "added_time" with
    | Some x => micros_of x
    | None => Some t
    end = Some m.
Proof.
  unfold dated, added_micros. cbn [py_get]. intros H t.
  destruct (dict_get d "added_time") as [x|]; [|now exists t].
  destruct (micros_of x) as [m|]; [now exists m|discriminate H].
Qed.




Lemma add_label_frame (server : pyval) (w : World) (r : result pyval) (w' : World) :
  add_label server w = (r, w') ->
  advances w w' /\ queries w' = queries w.
Proof.
  assert (R : advances w w /\ queries w = queries w)
    by (split; [apply advances_refl|reflexivity]).
  assert (T : advances w (set_ticks (S (S (ticks w))) w)
              /\ queries (set_ticks (S (S (ticks w))) w) = queries w).
  { split; [|reflexivity]. unfold advances. cbn [set_ticks clock net fs log ticks queries].
    repeat split; try lia. exists []. now rewrite app_nil_r. }
  unfold add_label. destruct server as [| | | | | |d];
    try (cbn [lift]; intros H; injection H as <- <-; exact R).
  run. cbn [ticks clock set_ticks].
  destruct (float_minus _ _) as [age|e]; cbn [py_setitem];
    intros H; injection H as <- <-; exact T.
Qed.

Lemma label_loop_frame (servers : list pyval) (w : World)
      (r : result (list pyval)) (w' : World) :
  label_loop servers w = (r, w') ->
  advances w w' /\ queries w' = queries w.
Proof.
  revert w r w'. induction servers as [|s servers IH]; intros w r w'.
  - cbn [label_loop]. unfold ret. intros H. injection H as <- <-.
    split; [apply advances_refl|reflexivity].
  - cbn [label_loop]. unfold bind at 1.
    destruct (add_label s w) as [[s'|e] w1] eqn:E1;
      destruct (add_label_frame s w _ _ E1) as [A1 Q1].
    + unfold bind at 1.
      destruct (label_loop servers w1) as [[rest|e] w2] eqn:E2;
        destruct (IH w1 _ _ E2) as [A2 Q2];
        unfold ret; intros H; injection H as <- <-;
        (split; [exact (advances_trans _ _ _ A1 A2)|now rewrite Q2]).
    + intros H. injection H as <- <-. now split.
Qed.

Lemma serve_index_frame (w : World) :
  advances w (snd (serve_index w))
  /\ queries (snd (serve_index w)) = queries w.
Proof.
  unfold serve_index, bind, lift, ret. rewrite (load_stored w).
  destruct (py_iter (stored w)) as [items|e]; cbn [snd];
    [|split; [apply advances_refl|reflexivity]].
  destruct (label_loop items w) as [[items'|e] w'] eqn:E;
    cbn [snd]; exact (label_loop_frame items w _ _ E).
Qed.

(** X19. The list page writes nothing: whatever the storage file holds
    and whether the page succeeds or fails, the file, the log and the
    record of queries are as before, and so is the list read from the
    file. The labels it computes are never stored. *)
Theorem serve_index_read_only (w : World) :
  fs (snd (serve_index w)) = fs w
  /\ log (snd (serve_index w)) = log w
  /\ queries (snd (serve_index w)) = queries w
  /\ (ticks w <= ticks (snd (serve_index w)))%nat
  /\ stored (snd (serve_index w)) = stored w.
Proof.
  destruct (serve_index_frame w) as [(_ & _ & Hf & Hl & Ht & _) Hq].
  repeat split; try assumption. now apply stored_fs.
Qed.

Lemma add_label_undated (bad : pyval) (w : World) :
  dated bad = false ->
  exists msg w',
    add_label bad w
    = (Raise (Exn match bad with
                  | VDict _ => "TypeError"
                  | _ => "AttributeError"
                  end msg), w').
Proof.
  intros H. destruct bad as [| | | | | |d];
    try (cbn [add_label lift]; eexists; eexists; reflexivity).
  unfold dated, added_micros in H. cbn [py_get] in H.
  unfold add_label. run. cbn [ticks clock set_ticks].
  destruct (dict_get d "added_time") as [x|]; [|discriminate H].
  unfold float_minus. destruct (micros_of x); [discriminate H|].
  eexists. eexists. reflexivity.
Qed.

(** X20. One stored entry the page cannot label makes the whole page
    fail: when the entries before it can be labelled and it is not a
    dict, the page raises [AttributeError]; when it is a dict whose
    [added_time] is not a number, the page raises [TypeError]. The
    storage file is left as it was. *)
Theorem serve_index_fails_on_unusable_entry
        (w : World) (before after : list pyval) (bad : pyval) :
  stored w = VList (before ++ bad :: after) ->
  forallb dated before = true ->
  dated bad = false ->
  exists msg,
    fst (serve_index w)
    = Raise (Exn match bad with
                 | VDict _ => "TypeError"
                 | _ => "AttributeError"
                 end msg)
    /\ fs (snd (serve_index w)) = fs w.
Proof.
  intros Hs Hb Hbad.
  assert (L : forall w0, exists msg w',
             label_loop (before ++ bad :: after) w0
             = (Raise (Exn match bad with
                           | VDict _ => "TypeError"
                           | _ => "AttributeError"
                           end msg), w')).
  { clear Hs. induction before as [|s before IH]; intros w0.
    - cbn [app label_loop]. unfold bind at 1.
      destruct (add_label_undated bad w0 Hbad) as (msg & w' & ->).
      now exists msg, w'.
    - cbn [forallb] in Hb. apply andb_true_iff in Hb. destruct Hb as [Hd Hb].
      destruct s as [| | | | | |d]; try discriminate Hd.
      destruct (dated_dict d Hd (clock w0 (ticks w0))) as (m & Hm).
      destruct (add_label_dated d w0 m Hm) as (l & E & _).
      destruct (IH Hb (set_ticks (S (S (ticks w0))) w0)) as (msg & w' & E').
      cbn [app label_loop]. unfold bind at 1. rewrite E.
      unfold bind at 1. rewrite E'. now exists msg, w'. }
  destruct (L w) as (msg & w' & E). exists msg. split.
  - unfold serve_index. unfold bind at 1. rewrite (load_stored w), Hs.
    unfold bind at 1. cbn [lift py_iter]. unfold bind at 1. rewrite E. reflexivity.
  - apply (serve_index_frame w).
Qed.

(** X21. An address that is already filed is never filed again, however
    it is spelled: when the stored list has an entry under the
    normalized form of a valid submitted address (the address itself, or
    the address with the default port appended), the handler answers
    without raising and leaves the storage file as it was, whether the
    probe finds the server online or not. *)
Theorem add_server_known_address
        (form address : string) (w : World) (servers : list pyval) :
  strip form = address -> address <> "" -> re_match address = true ->
  stored w = VList servers -> forallb has_address servers = true ->
  (0 < count_address (normalized address) servers)%nat ->
  exists r w',
    add_server (Some form) w = (Ok r, w')
    /\ fs w' = fs w.
Proof.
  intros Hs Hne Hre Hst Hall Hc.
  destruct (ping_server_str address w) as (info & wp & E & A & [(st & ->) | (e & ->)]).
  - destruct (add_server_online form address w wp servers st _ Hs Hne Hre Hst Hall E A)
      as (r & w1 & _ & E1 & _ & _ & _ & Hf).
    exists r, w1. split; [exact E1|exact (Hf Hc)].
  - destruct (add_server_offline form address w wp e _ Hs Hne Hre E) as (r & E1).
    exists r, wp. split; [exact E1|apply A].
Qed.

(** ** The service as a whole *)

Lemma serve_well_kept (r : request) (w : World) (servers : list pyval) :
  stored w = VList servers -> well_kept servers ->
  exists servers', stored (serve r w) = VList servers' /\ well_kept servers'.
Proof.
  intros Hs Hk. destruct r as [|form|]; cbn [serve].
  - destruct (cycle_well_kept w servers Hs Hk) as (updated & w' & -> & H).
    now exists updated.
  - destruct (add_server form w) as [r w'] eqn:E.
    exact (add_server_well_kept form w servers r w' Hs Hk E).
  - exists servers. split; [|exact Hk].
    rewrite <- Hs. apply stored_fs. apply (serve_index_frame w).
Qed.

Lemma serve_all_well_kept (rs : list request) (w : World) (servers : list pyval) :
  stored w = VList servers -> well_kept servers ->
  exists servers', stored (serve_all rs w) = VList servers' /\ well_kept servers'.
Proof.
  revert w servers. induction rs as [|r rs IH]; intros w servers Hs Hk.
  - now exists servers.
  - destruct (serve_well_kept r w servers Hs Hk) as (servers1 & Hs1 & Hk1).
    exact (IH _ _ Hs1 Hk1).
Qed.

(** X22. The shape of the stored list is an invariant of the service:
    from a stored list of entries fit for the refresher, filed under
    pairwise distinct addresses with a port, any sequence of turns of
    the background loop, submissions and visits of the list page, run
    one after another, leaves such a list in the storage file. *)
Theorem service_keeps_list_well_kept
        (rs : list request) (w : World) (servers : list pyval) :
  stored w = VList servers -> well_kept servers ->
  exists servers', stored (serve_all rs w) = VList servers' /\ well_kept servers'.
Proof. exact (serve_all_well_kept rs w servers). Qed.



(** ** The further properties at the sample worlds *)


Lemma fresh_entry_well_kept : well_kept [entry_fresh].
Proof.
  split; [reflexivity|]. split; [reflexivity|].
  repeat constructor. intros [].
Qed.

(** A number passed as the address. *)
Lemma ping_server_not_text_witness :
  exists info,
    ping_server (VInt 25565) empty_world
    = (Ok (VDict info), set_ticks (S (ticks empty_world)) empty_world)
    /\ dict_get info "status" = Some (VStr "offline")
    /\ queries (set_ticks (S (ticks empty_world)) empty_world)
       = queries empty_world.
Proof.
  apply (ping_server_not_text (VInt 25565) empty_world).
  intros s. discriminate.
Defined.



(** A text among the stored entries. *)
Lemma unusable_entry_blocks_cycle_witness :
  exists e w',
    server_checker_cycle (world_with junk_servers) = (Ok tt, w')
    /\ fs w' = fs (world_with junk_servers)
    /\ log w' = log (world_with junk_servers)
                  ++ [("Server checker error: " ++ exn_text e)%string].
Proof.
  apply (unusable_entry_blocks_cycle (world_with junk_servers)
           [entry_online] [entry_fresh] (VStr "junk"));
    vm_compute; reflexivity.
Defined.



(** An entry that holds an address and nothing else. *)
Lemma entry_without_added_time_is_probed_witness :
  exists info w',
    ping_server (VStr "mc.example.com:25565")
      (set_ticks (S (ticks empty_world)) empty_world)
    = (Ok (VDict info), w')
    /\ ((dict_get info "status" = Some (VStr "online")
         /\ check_server (VDict [("address", VStr "mc.example.com:25565")]) []
              empty_world
            = (Ok ([] ++ [VDict (dict_update
                                   [("address", VStr "mc.example.com:25565")]
                                   info)]), w')
         /\ dict_get (dict_update [("address", VStr "mc.example.com:25565")] info)
              "added_time" = None)
        \/ (dict_get info "status" = Some (VStr "offline")
            /\ check_server (VDict [("address", VStr "mc.example.com:25565")]) []
                 empty_world
               = (Ok [], w'))).
Proof.
  apply (entry_without_added_time_is_probed
           [("address", VStr "mc.example.com:25565")]
           (VStr "mc.example.com:25565") [] empty_world);
    vm_compute; reflexivity.
Defined.


(** [gone.example.com], whose server does not answer. *)
Lemma add_server_reports_failure_witness :
  exists message html,
    dict_get (info_of (ping_server (VStr "gone.example.com") empty_world)) "error"
    = Some (VStr message)
    /\ add_server (Some "gone.example.com") empty_world
       = (Ok (Response 200 [("error", html)]),
          snd (ping_server (VStr "gone.example.com") empty_world))
    /\ contains message html
    /\ fs (snd (ping_server (VStr "gone.example.com") empty_world))
       = fs empty_world.
Proof.
  apply (add_server_reports_failure "gone.example.com" "gone.example.com"
           empty_world
           (snd (ping_server (VStr "gone.example.com") empty_world))
           (info_of (ping_server (VStr "gone.example.com") empty_world)));
    try (vm_compute; reflexivity); discriminate.
Defined.


(** [mc.example.com], submitted when the file holds an object. *)
Lemma add_server_needs_a_list_witness :
  exists e w',
    add_server (Some "mc.example.com") object_world = (Raise e, w')
    /\ fs w' = fs object_world.
Proof.
  apply (add_server_needs_a_list "mc.example.com" "mc.example.com" object_world
           (snd (ping_server (VStr "mc.example.com") object_world))
           (info_of (ping_server (VStr "mc.example.com") object_world)));
    try (vm_compute; reflexivity); discriminate.
Defined.

(** [mc.example.com], submitted when the fresh sample entry is stored. *)
Lemma add_server_keeps_list_well_kept_witness :
  exists servers',
    stored (snd (add_server (Some "mc.example.com") (world_with [entry_fresh])))
    = VList servers'
    /\ well_kept servers'.
Proof.
  apply (add_server_keeps_list_well_kept (Some "mc.example.com")
           (world_with [entry_fresh]) [entry_fresh]
           (fst (add_server (Some "mc.example.com") (world_with [entry_fresh])))
           (snd (add_server (Some "mc.example.com") (world_with [entry_fresh])))).
  - vm_compute. reflexivity.
  - exact fresh_entry_well_kept.
  - vm_compute. reflexivity.
Defined.



(** The list page when a text is among the stored entries. *)
Lemma serve_index_fails_on_unusable_entry_witness :
  exists msg,
    fst (serve_index (world_with junk_servers))
    = Raise (Exn "AttributeError" msg)
    /\ fs (snd (serve_index (world_with junk_servers)))
       = fs (world_with junk_servers).
Proof.
  apply (serve_index_fails_on_unusable_entry (world_with junk_servers)
           [entry_online] [entry_fresh] (VStr "junk"));
    vm_compute; reflexivity.
Defined.

(** [mc.example.com], submitted when [mc.example.com:25565] is stored. *)
Lemma add_server_known_address_witness :
  exists r w',
    add_server (Some "mc.example.com") (world_with sample_servers) = (Ok r, w')
    /\ fs w' = fs (world_with sample_servers).
Proof.
  apply (add_server_known_address "mc.example.com" "mc.example.com"
           (world_with sample_servers) sample_servers);
    try (vm_compute; reflexivity); discriminate.
Defined.

(** A submission, a turn and a page visit, from the fresh sample entry. *)
Lemma service_keeps_list_well_kept_witness :
  exists servers',
    stored (serve_all sample_requests (world_with [entry_fresh])) = VList servers'
    /\ well_kept servers'.
Proof.
  apply (service_keeps_list_well_kept sample_requests (world_with [entry_fresh])
           [entry_fresh]).
  - vm_compute. reflexivity.
  - exact fresh_entry_well_kept.
Defined.

